(** * CrowdShield: routing, risk scoring and fusion, turn narration

    A shallow embedding of the algorithmic core of the evacuation copilot:
    [src/fusion_engine.py], [src/risk_disaster.py], [src/risk_crowd.py],
    [src/routing.py] and the turn classification and routing block of
    [app.py].

    Numbers.  Python's [float] is IEEE 754 binary64.  Every function below is
    written once, over an interface [PyFloat] of the arithmetic and the
    comparisons the source uses, and that interface has two instances:
    - [Q], exact rational arithmetic, in which the general theorems are
      proved (every finite binary64 value is a rational, and the comparisons
      of the source against its constants are exact);
    - [float], Rocq's primitive binary64 numbers with round-to-nearest-even,
      on which the concrete scenarios are evaluated as Python evaluates them.

    Dictionaries ([i18n], the weather record, the threshold table) are
    [gmap]s keyed by strings.  Exceptions are values of [result]. *)

From stdpp Require Import gmap strings list.
From Stdlib Require Import QArith Qminmax Qround Floats Lia Lqa.

Set Warnings "-inexact-float".

(** ** The numeric interface *)

Class PyFloat (T : Type) := {
  of_int : Z -> T;
  fadd : T -> T -> T;
  fsub : T -> T -> T;
  fmul : T -> T -> T;
  fdiv : T -> T -> T;
  fltb : T -> T -> bool;
  fleb : T -> T -> bool;
  feqb : T -> T -> bool;
  (* [x < float("inf")] *)
  flt_inf : T -> bool
}.

Declare Scope py_scope.
Delimit Scope py_scope with py.
Notation "x + y" := (fadd x y) : py_scope.
Notation "x - y" := (fsub x y) : py_scope.
Notation "x * y" := (fmul x y) : py_scope.
Notation "x / y" := (fdiv x y) : py_scope.
Notation "x <? y" := (fltb x y) : py_scope.
Notation "x <=? y" := (fleb x y) : py_scope.
Notation "x >? y" := (fltb y x) : py_scope.
Notation "x >=? y" := (fleb y x) : py_scope.
Notation "x =? y" := (feqb x y) : py_scope.

(** A decimal literal [m / 10^e] of the source.  Both [m] and [10^e] are
    below [2^53] for every literal used here, so the correctly rounded
    binary64 quotient is the value Python's parser gives the literal. *)
Definition dec `{PyFloat T} (m : Z) (e : nat) : T :=
  (of_int m / of_int (10 ^ Z.of_nat e))%py.

(** Python's [max(a, b)] and [min(a, b)] keep the first argument unless the
    second is strictly larger (smaller). *)
Definition pymax `{PyFloat T} (a b : T) : T := if (b >? a)%py then b else a.
Definition pymin `{PyFloat T} (a b : T) : T := if (b <? a)%py then b else a.

#[export] Instance Q_PyFloat : PyFloat Q := {
  of_int := inject_Z;
  fadd := Qplus;
  fsub := Qminus;
  fmul := Qmult;
  fdiv := Qdiv;
  fltb := fun a b => negb (Qle_bool b a);
  fleb := Qle_bool;
  feqb := Qeq_bool;
  flt_inf := fun _ => true
}.

(** [float(z)] of a Python int: the nearest binary64 number, ties to
    even. *)
Definition float_of_int (z : Z) : float :=
  SF2Prim (SpecFloat.binary_normalize prec emax z 0 false).

#[export] Instance float_PyFloat : PyFloat float := {
  of_int := float_of_int;
  fadd := PrimFloat.add;
  fsub := PrimFloat.sub;
  fmul := PrimFloat.mul;
  fdiv := PrimFloat.div;
  fltb := PrimFloat.ltb;
  fleb := PrimFloat.leb;
  feqb := PrimFloat.eqb;
  flt_inf := fun x => PrimFloat.ltb x infinity
}.

(** Exceptions: a call either returns or raises. *)
Inductive result (A : Type) : Type :=
| Ok (a : A)
| Raise (exn : string).
Arguments Ok {A} a.
Arguments Raise {A} exn.

#[export] Instance result_ret : MRet result := fun _ a => Ok a.
#[export] Instance result_bind : MBind result := fun _ _ k r =>
  match r with
  | Ok a => k a
  | Raise e => Raise e
  end.

(** [try: body except Exception: handler]. *)
Definition try_except {A} (body : result A) (handler : A) : A :=
  match body with
  | Ok a => a
  | Raise _ => handler
  end.

(** [d[key]] on a dictionary: [KeyError] when the key is absent. *)
Definition getitem {V} (d : gmap string V) (key : string) : result V :=
  match d !! key with
  | Some v => Ok v
  | None => Raise "KeyError"
  end.

(** [i18n.get(key, default) if i18n else default]: a dictionary is truthy
    when it is not empty. *)
Definition i18n_get (i18n : option (gmap string string)) (key dflt : string)
  : string :=
  match i18n with
  | Some d => if bool_decide (d = ∅) then dflt else default dflt (d !! key)
  | None => dflt
  end.

(** ** src/fusion_engine.py *)

Section Fusion.
Context {T : Type} `{PyFloat T}.

Definition combined_score (disaster_score crowd_score : T) : T :=
  pymax disaster_score (crowd_score * dec 9 1)%py.

Definition fuse (disaster_score crowd_score : T)
    (i18n : option (gmap string string)) : string * list string :=
  let combined := combined_score disaster_score crowd_score in
  let tr := i18n_get i18n in
  if (combined <? dec 2 1)%py then
    (tr "low" "Low",
     [tr "rec_monitor" "Monitor conditions";
      tr "rec_updates" "Send updates to residents"])
  else if (combined <? dec 5 1)%py then
    (tr "medium" "Medium",
     [tr "rec_prepare" "Prepare shelters";
      tr "rec_limit" "Advise limited movement"])
  else if (combined <? dec 8 1)%py then
    (tr "high" "High",
     [tr "rec_evac" "Activate evacuation protocol";
      tr "rec_vulnerable" "Prioritize vulnerable groups"])
  else
    (tr "critical" "Critical",
     [tr "rec_immediate" "Immediate evacuation";
      tr "rec_services" "Deploy emergency services";
      tr "rec_broadcast" "Activate emergency broadcast"]).

End Fusion.

(** The order Low < Medium < High < Critical on the default tier labels. *)
Definition tier_rank (tier : string) : option nat :=
  if String.eqb tier "Low" then Some 0%nat
  else if String.eqb tier "Medium" then Some 1%nat
  else if String.eqb tier "High" then Some 2%nat
  else if String.eqb tier "Critical" then Some 3%nat
  else None.

Definition tier_le (t1 t2 : string) : Prop :=
  match tier_rank t1, tier_rank t2 with
  | Some r1, Some r2 => (r1 <= r2)%nat
  | _, _ => False
  end.

(** ** Driver strings

    The scorers build their driver strings with f-strings.  A driver is kept
    as the sequence of its pieces: literal text, and numbers with the format
    specification the f-string gives them (the rendering of a number is
    Python's and is not modelled). *)

Inductive piece (T : Type) : Type :=
| Lit (s : string)
| Fmt (v : T) (spec : string)
| FmtInt (n : Z).
Arguments Lit {T} s.
Arguments Fmt {T} v spec.
Arguments FmtInt {T} n.

Definition driver (T : Type) : Type := list (piece T).

(** Whether [s1] occurs in [s2]. *)
Fixpoint occurs_in (s1 s2 : string) : bool :=
  String.prefix s1 s2 ||
  match s2 with
  | EmptyString => false
  | String _ rest => occurs_in s1 rest
  end.

(** Whether some driver of the list carries the literal text [label]. *)
Definition mentions {T} (label : string) (drivers : list (driver T)) : bool :=
  existsb
    (existsb (fun p => match p with Lit s => occurs_in label s | _ => false end))
    drivers.

(** ** src/risk_disaster.py *)

Module RiskDisaster.
Section WithNumbers.
Context {T : Type} `{PyFloat T}.

(** [config]: the parsed content of [configs/thresholds.yaml] when the file
    exists, [None] when it does not. *)
Definition _load_thresholds (config : option (gmap string (gmap string T)))
  : gmap string (gmap string T) :=
  match config with
  | Some t => t
  | None =>
      {[ "rainfall_mm" :=
           {[ "low" := of_int 10; "medium" := of_int 25; "high" := of_int 50 ]};
         "wind_kph" :=
           {[ "low" := of_int 20; "medium" := of_int 40; "high" := of_int 80 ]} ]}
  end.

Definition score_disaster (config : option (gmap string (gmap string T)))
    (weather : gmap string T) (trigger_flood : bool)
    (i18n : option (gmap string string)) : result (T * list (driver T)) :=
  let t := _load_thresholds config in
  let rainfall := default (of_int 0) (weather !! "rainfall_mm") in
  let wind := default (of_int 0) (weather !! "wind_kph") in
  let score := of_int 0 in
  let drivers := [] in
  (* Rainfall scoring *)
  t_rain ← getitem t "rainfall_mm";
  rain_high ← getitem t_rain "high";
  '(score, drivers) ←
    (if (rainfall >=? rain_high)%py || trigger_flood then
       Ok ((score + dec 6 1)%py,
           drivers ++ [[Lit (i18n_get i18n "risk_disaster" "Disaster risk");
                        Lit ": Severe rainfall ("; Fmt rainfall "";
                        Lit " mm)"]])
     else
       rain_medium ← getitem t_rain "medium";
       if (rainfall >=? rain_medium)%py then
         Ok ((score + dec 3 1)%py,
             drivers ++ [[Lit "Moderate rainfall ("; Fmt rainfall "";
                          Lit " mm)"]])
       else
         Ok (score,
             drivers ++ [[Lit "Low rainfall ("; Fmt rainfall "";
                          Lit " mm)"]]));
  (* Wind scoring *)
  t_wind ← getitem t "wind_kph";
  wind_high ← getitem t_wind "high";
  '(score, drivers) ←
    (if (wind >=? wind_high)%py then
       Ok ((score + dec 4 1)%py,
           drivers ++ [[Lit "High winds ("; Fmt wind ".1f"; Lit " kph)"]])
     else
       wind_medium ← getitem t_wind "medium";
       if (wind >=? wind_medium)%py then
         Ok ((score + dec 15 2)%py,
             drivers ++ [[Lit "Moderate winds ("; Fmt wind ".1f";
                          Lit " kph)"]])
       else
         Ok (score,
             drivers ++ [[Lit "Low winds ("; Fmt wind ".1f"; Lit " kph)"]]));
  Ok (pymin (of_int 1) score, drivers).

End WithNumbers.
End RiskDisaster.

(** ** src/risk_crowd.py *)

(** A pandas DataFrame, as far as [score_crowd] looks at it: the number of
    rows, and the columns by name.  A column is an int64 column: its cells
    are people counts, integers. *)
Record DataFrame : Type := {
  df_rows : nat;
  df_columns : gmap string (list Z)
}.

(** [int(column.sum())] of an int64 column: pandas adds the cells in
    64-bit two's complement, so the sum wraps around. *)
Definition int64_wrap (z : Z) : Z :=
  ((z + 2 ^ 63) mod 2 ^ 64 - 2 ^ 63)%Z.

Definition column_sum (cells : list Z) : Z :=
  int64_wrap (foldr Z.add 0%Z cells).

(** [df.empty]: no rows or no columns. *)
Definition df_empty (df : DataFrame) : bool :=
  Nat.eqb (df_rows df) 0 || bool_decide (df_columns df = ∅).

Module RiskCrowd.
Section WithNumbers.
Context {T : Type} `{PyFloat T}.

(** [config]: the parsed content of [configs/thresholds.yaml], [None] when
    opening or parsing the file raises. *)
Definition _load_thresholds (config : option (gmap string (gmap string T)))
  : gmap string (gmap string T) :=
  match config with
  | Some t => t
  | None =>
      {[ "crowd_density_per_m2" :=
           {[ "low" := dec 5 1; "medium" := of_int 2; "high" := of_int 4 ]} ]}
  end.

Definition score_crowd (config : option (gmap string (gmap string T)))
    (crowd_df : option DataFrame) (trigger_surge : bool) (area_m2 : T)
    (i18n : option (gmap string string)) : result (T * list (driver T)) :=
  let t := _load_thresholds config in
  (* Handle missing or empty data *)
  match crowd_df with
  | None => Ok (of_int 0, [[Lit (i18n_get i18n "no_data" "No crowd data")]])
  | Some df =>
      if df_empty df then
        Ok (of_int 0, [[Lit (i18n_get i18n "no_data" "No crowd data")]])
      else
        match df_columns df !! "people" with
        | None =>
            Ok (of_int 0,
                [[Lit (i18n_get i18n "missing_people"
                         "Missing 'people' column")]])
        | Some people =>
            let total_people := column_sum people in
            density ←
              (if (area_m2 =? of_int 0)%py then Raise "ZeroDivisionError"
               else Ok (of_int total_people / area_m2)%py);
            let drivers :=
              [[Lit (i18n_get i18n "density" "Density"); Lit ": ";
                Fmt density ".2f"; Lit " ppl/m2"];
               [Lit "Total people: "; FmtInt total_people]] in
            let score := of_int 0 in
            is_high ←
              (if trigger_surge then Ok true
               else
                 t_crowd ← getitem t "crowd_density_per_m2";
                 high ← getitem t_crowd "high";
                 Ok (density >=? high)%py);
            '(score, drivers) ←
              (if is_high : bool then
                 Ok (dec 7 1,
                     drivers ++ [[Lit (i18n_get i18n "high" "High density")]])
               else
                 t_crowd ← getitem t "crowd_density_per_m2";
                 medium ← getitem t_crowd "medium";
                 if (density >=? medium)%py then
                   Ok (dec 35 2,
                       drivers ++
                         [[Lit (i18n_get i18n "medium" "Moderate density")]])
                 else
                   Ok (score,
                       drivers ++
                         [[Lit (i18n_get i18n "low" "Low density")]]));
            Ok (pymin (of_int 1) score, drivers)
        end
  end.

End WithNumbers.
End RiskCrowd.

(** ** app.py: the direction of a turn *)

(** Python's [a % b] on numbers, the floored remainder.  Exact arithmetic
    only: the bearings that feed it come out of the trigonometry of
    [calculate_bearing]. *)
Definition Qmod (a b : Q) : Q := (a - b * inject_Z (Qfloor (a / b)))%Q.

Definition turn_angle (bearing prev_bearing : Q) : Q :=
  Qmod (bearing - prev_bearing + 360)%Q 360.

Section Narration.
Context {T : Type} `{PyFloat T}.

(** The eight conditions of the [if]/[elif] chain, in source order. *)
Definition turn_buckets (turn_angle : T) : list bool :=
  [ (turn_angle >? dec 3375 1)%py || (turn_angle <? dec 225 1)%py;
    (dec 225 1 <=? turn_angle)%py && (turn_angle <? dec 675 1)%py;
    (dec 675 1 <=? turn_angle)%py && (turn_angle <? dec 1125 1)%py;
    (dec 1125 1 <=? turn_angle)%py && (turn_angle <? dec 1575 1)%py;
    (dec 1575 1 <=? turn_angle)%py && (turn_angle <? dec 2025 1)%py;
    (dec 2025 1 <=? turn_angle)%py && (turn_angle <? dec 2475 1)%py;
    (dec 2475 1 <=? turn_angle)%py && (turn_angle <? dec 2925 1)%py;
    (dec 2925 1 <=? turn_angle)%py && (turn_angle <? dec 3375 1)%py ].

Definition matching_buckets (turn_angle : T) : nat :=
  length (filter (fun b => b = true) (turn_buckets turn_angle)).

Definition turn_direction (turn_angle : T) : string :=
  if (turn_angle >? dec 3375 1)%py || (turn_angle <? dec 225 1)%py then
    "Continue straight ahead"
  else if (dec 225 1 <=? turn_angle)%py && (turn_angle <? dec 675 1)%py then
    "Turn slightly right"
  else if (dec 675 1 <=? turn_angle)%py && (turn_angle <? dec 1125 1)%py then
    "Turn right"
  else if (dec 1125 1 <=? turn_angle)%py && (turn_angle <? dec 1575 1)%py then
    "Turn sharp right"
  else if (dec 1575 1 <=? turn_angle)%py && (turn_angle <? dec 2025 1)%py then
    "Make a U-turn"
  else if (dec 2025 1 <=? turn_angle)%py && (turn_angle <? dec 2475 1)%py then
    "Turn sharp left"
  else if (dec 2475 1 <=? turn_angle)%py && (turn_angle <? dec 2925 1)%py then
    "Turn left"
  else if (dec 2925 1 <=? turn_angle)%py && (turn_angle <? dec 3375 1)%py then
    "Turn slightly left"
  else
    "Continue".

(** The first segment has no previous bearing and is named by its cardinal
    quadrant. *)
Definition heading (bearing : T) : string :=
  if (of_int 315 <=? bearing)%py || (bearing <? of_int 45)%py then "Head north"
  else if (of_int 45 <=? bearing)%py && (bearing <? of_int 135)%py then
    "Head east"
  else if (of_int 135 <=? bearing)%py && (bearing <? of_int 225)%py then
    "Head south"
  else "Head west".

End Narration.

(** The direction of one emitted segment of [generate_voice_navigation]. *)
Definition segment_direction (prev_bearing : option Q) (bearing : Q) : string :=
  match prev_bearing with
  | Some prev => turn_direction (turn_angle bearing prev)
  | None => heading bearing
  end.

(** ** src/routing.py: data *)

(** Node identifiers: the [(i, j)] tuples of [nx.grid_2d_graph], or the
    integer ids of a fetched street network. *)
Inductive Node : Type :=
| NTuple (i j : Z)
| NId (k : Z).

#[export] Instance Node_eq_dec : EqDecision Node.
Proof. solve_decision. Defined.

(** The values a node attribute dictionary holds: a number (["x"], ["y"],
    ["lon"], ["lat"]) or a pair of numbers (["coord"]). *)
Inductive pyval (T : Type) : Type :=
| VFloat (v : T)
| VPair (a b : T).
Arguments VFloat {T} v.
Arguments VPair {T} a b.

(** [float(v)]. *)
Definition to_float {T} (v : pyval T) : result T :=
  match v with
  | VFloat x => Ok x
  | VPair _ _ => Raise "TypeError"
  end.

(** The attribute dictionary of an edge: its ["length"], and the centroid of
    its ["geometry"] when it has one with a [centroid] attribute ([Raise]
    when reading the attribute raises). *)
Record EdgeData (T : Type) : Type := {
  e_length : option T;
  e_centroid : option (result (T * T))
}.
Arguments e_length {T} _.
Arguments e_centroid {T} _.

(** A networkx graph: whether its class is directed ([DiGraph], and the
    [MultiDiGraph] of osmnx) or not ([Graph], [MultiGraph]); the nodes with
    their attribute dictionaries in insertion order; and the edges as
    [G.edges(data=True)] enumerates them, parallel edges in the order of
    their keys. *)
Record NxGraph (T : Type) : Type := {
  directed : bool;
  nodes : list (Node * gmap string (pyval T));
  edges : list (Node * Node * EdgeData T)
}.
Arguments directed {T} _.
Arguments nodes {T} _.
Arguments edges {T} _.

(** What is passed as the graph argument [G]: [None], a networkx graph, the
    dictionary fallback ["nodes"]/["edges"] of [build_grid_graph], or the
    tuple [(G, blocked)] that [block_edges_by_hazards] returns. *)
Inductive Graph (T : Type) : Type :=
| GNone
| GNx (g : NxGraph T)
| GDict (dnodes : list (Node * (Z * Z))) (dedges : list (Node * Node))
| GPair (g : Graph T) (blocked : Z).
Arguments GNone {T}.
Arguments GNx {T} g.
Arguments GDict {T} dnodes dedges.
Arguments GPair {T} g blocked.

(** The objects a hazard input yields: something with a [contains] method (a
    shapely geometry, named by a handle), or something without. *)
Inductive geom : Type :=
| Shapely (h : nat)
| NotGeometry.

(** The items of a hazard list: a shapely geometry, a GeoJSON-like
    dictionary with ["type"] and ["coordinates"], or anything else. *)
Inductive hazard_item : Type :=
| ItemGeometry (h : nat)
| ItemGeoJSON (j : nat)
| ItemOther.

(** The hazard argument: [None], an object with a [geometry] attribute (a
    GeoDataFrame), a list, tuple or set, or anything else. *)
Inductive Hazards : Type :=
| HNone
| HFrame (geometry : list geom)
| HList (items : list hazard_item)
| HOther.

(** What [_nearest_node_in_graph] returns: a node of the graph, or the
    queried coordinate itself. *)
Inductive node_ref (T : Type) : Type :=
| RefNode (n : Node)
| RefCoord (c : T * T).
Arguments RefNode {T} n.
Arguments RefCoord {T} c.

(** The [math] module. *)
Record Math (T : Type) : Type := {
  math_radians : T -> T;
  math_sin : T -> T;
  math_cos : T -> T;
  math_sqrt : T -> result T;
  math_atan2 : T -> T -> T
}.
Arguments math_radians {T} _ _.
Arguments math_sin {T} _ _.
Arguments math_cos {T} _ _.
Arguments math_sqrt {T} _ _.
Arguments math_atan2 {T} _ _ _.

(** The optional dependencies of [routing.py] and what they compute:
    whether networkx, osmnx and shapely were importable, and the library
    calls the module makes. *)
Record Libs (T : Type) : Type := {
  nx : bool;
  ox : bool;
  shapely : bool;
  math : Math T;
  (* nx.shortest_path(G, source, target, weight) *)
  nx_shortest_path :
    NxGraph T -> node_ref T -> node_ref T -> option string ->
    result (list Node);
  (* ox.graph_from_point(center, dist, network_type="walk") *)
  ox_graph_from_point : T * T -> Z -> result (NxGraph T);
  (* shapely.geometry.shape(item) *)
  shape : nat -> result nat;
  (* poly.contains(Point(x, y)) *)
  contains : nat -> T * T -> result bool
}.
Arguments nx {T} _.
Arguments ox {T} _.
Arguments shapely {T} _.
Arguments math {T} _.
Arguments nx_shortest_path {T} _ _ _ _ _.
Arguments ox_graph_from_point {T} _ _ _.
Arguments shape {T} _ _.
Arguments contains {T} _ _ _.

(** [G.nodes[n]]. *)
Definition nodes_get {T} (g : NxGraph T) (n : Node)
  : result (gmap string (pyval T)) :=
  match find (fun na => bool_decide (na.1 = n)) (nodes g) with
  | Some na => Ok na.2
  | None => Raise "KeyError"
  end.

(** Whether an entry of the edge list is an edge [G.remove_edge(u, v)] may
    remove: an edge from [u] to [v], or, in an undirected graph, between
    the two. *)
Definition edge_matches {T} (is_directed : bool)
    (e : Node * Node * EdgeData T) (u v : Node) : bool :=
  bool_decide (e.1.1 = u ∧ e.1.2 = v)
  || (negb is_directed && bool_decide (e.1.1 = v ∧ e.1.2 = u)).

(** [G2.remove_edge(u, v)]: one edge from [u] to [v] goes, the one added
    last when there are parallel edges ([popitem] on the keys); and
    [NetworkXError] is raised when there is none. *)
Fixpoint remove_edge_list {T} (is_directed : bool)
    (l : list (Node * Node * EdgeData T))
    (u v : Node) : option (list (Node * Node * EdgeData T)) :=
  match l with
  | [] => None
  | e :: rest =>
      match remove_edge_list is_directed rest u v with
      | Some rest' => Some (e :: rest')
      | None => if edge_matches is_directed e u v then Some rest else None
      end
  end.

Definition remove_edge {T} (g : NxGraph T) (u v : Node) : result (NxGraph T) :=
  match remove_edge_list (directed g) (edges g) u v with
  | Some l => Ok {| directed := directed g; nodes := nodes g; edges := l |}
  | None => Raise "NetworkXError"
  end.

(** The endpoints of the edges of a graph argument. *)
Definition edge_list {T} (G : Graph T) : list (Node * Node) :=
  match G with
  | GNx g => (fun e => e.1) <$> edges g
  | GDict _ dedges => dedges
  | GNone | GPair _ _ => []
  end.

(** [nx.grid_2d_graph(m, n)]: the nodes [(i, j)], and an edge from each node
    to its lower and to its right neighbour. *)
Definition range (n : nat) : list Z := Z.of_nat <$> seq 0 n.

Definition grid_2d_nodes (m n : nat) : list (Z * Z) :=
  i ← range m; j ← range n; [(i, j)].

Definition grid_2d_edges (m n : nat) : list (Node * Node) :=
  i ← range m; j ← range n;
  (if bool_decide (i + 1 < Z.of_nat m)%Z
   then [(NTuple i j, NTuple (i + 1) j)] else []) ++
  (if bool_decide (j + 1 < Z.of_nat n)%Z
   then [(NTuple i j, NTuple i (j + 1))] else []).

(** ** src/routing.py: functions *)

Section Routing.
Context {T : Type} `{PyFloat T}.

(** A tuple that is unpacked into two numbers. *)
Definition to_pair (v : pyval T) : result (T * T) :=
  match v with
  | VPair a b => Ok (a, b)
  | VFloat _ => Raise "TypeError"
  end.

(** Great-circle distance between two (lat, lon) points in kilometers.
    [x ** 2] is [x * x]; [math.sqrt] raises on a negative argument. *)
Definition _haversine_km (M : Math T) (p1 p2 : T * T) : result T :=
  let '(lat1, lon1) := p1 in
  let '(lat2, lon2) := p2 in
  let R := dec 63710 1 in
  let dlat := math_radians M (lat2 - lat1)%py in
  let dlon := math_radians M (lon2 - lon1)%py in
  let sq x := (x * x)%py in
  let a := (sq (math_sin M (dlat / of_int 2))
            + math_cos M (math_radians M lat1)
              * math_cos M (math_radians M lat2)
              * sq (math_sin M (dlon / of_int 2)))%py in
  s1 ← math_sqrt M a;
  s2 ← math_sqrt M (of_int 1 - a)%py;
  let c := (of_int 2 * math_atan2 M s1 s2)%py in
  Ok (R * c)%py.

(** Simple straight-line interpolation fallback route between origin and
    target.  Origin and target are pairs of numbers here, so the only
    exception the comprehension can raise is the division by [steps = 0],
    and the handler then returns [[origin, target]].  [steps] is a Python
    int: for a negative one [range(steps + 1)] is empty, nothing is divided
    and the route is empty. *)
Definition grid_route_fallback (origin target : T * T) (steps : Z)
  : list (T * T) :=
  let '(lat1, lon1) := origin in
  let '(lat2, lon2) := target in
  if (steps =? 0)%Z then [origin; target]
  else
    (fun i : Z =>
       ((lat1 + (lat2 - lat1) * of_int i / of_int steps)%py,
        (lon1 + (lon2 - lon1) * of_int i / of_int steps)%py))
    <$> range (Z.to_nat (steps + 1)).

(** The attributes [build_grid_graph] attaches to the node [(i, j)]. *)
Definition grid_node_attrs (size : nat) (center_point : option (T * T))
    (i j : Z) : gmap string (pyval T) :=
  match center_point with
  | Some (latc, lonc) =>
      let spacing := dec 5 3 in
      let offset := (Z.of_nat size / 2)%Z in
      let lat := (latc + of_int (i - offset) * spacing)%py in
      let lon := (lonc + of_int (j - offset) * spacing)%py in
      {[ "y" := VFloat lat; "x" := VFloat lon; "coord" := VPair lat lon ]}
  | None =>
      {[ "y" := VFloat (of_int i); "x" := VFloat (of_int j);
         "coord" := VPair (of_int i) (of_int j) ]}
  end.

Definition grid_nodes (size : nat) (center_point : option (T * T))
  : list (Node * gmap string (pyval T)) :=
  (fun ij : Z * Z =>
     (NTuple ij.1 ij.2, grid_node_attrs size center_point ij.1 ij.2))
  <$> grid_2d_nodes size size.

(** The ["length"] attribute of the edge [(u, v)]:
    [_haversine_km(G.nodes[u]["coord"], G.nodes[v]["coord"])]. *)
Definition grid_edge (M : Math T) (g : NxGraph T) (uv : Node * Node)
  : result (Node * Node * EdgeData T) :=
  au ← nodes_get g uv.1;
  a ← getitem au "coord" ≫= to_pair;
  av ← nodes_get g uv.2;
  b ← getitem av "coord" ≫= to_pair;
  d ← _haversine_km M a b;
  Ok (uv, {| e_length := Some d; e_centroid := None |}).

(** Create a simple grid graph (networkx) for offline demo. *)
Definition build_grid_graph (L : Libs T) (size : nat)
    (center_point : option (T * T)) : Graph T :=
  if negb (nx L) then
    (* minimal dict fallback *)
    GDict ((fun ij : Z * Z => (NTuple ij.1 ij.2, ij))
           <$> grid_2d_nodes size size) []
  else
    let G := {| directed := false;
                nodes := grid_nodes size center_point; edges := [] |} in
    try_except
      (es ← mapM (grid_edge (math L) G) (grid_2d_edges size size);
       Ok (GNx {| directed := false; nodes := nodes G; edges := es |}))
      (GDict [] []).

(** The reference point of [center_point or (9.931233, 76.267304)]. *)
Definition default_center : T * T := (dec 9931233 6, dec 76267304 6).

(** Load an OSMnx graph if available; otherwise return a simple grid graph
    or dict fallback. *)
Definition load_graph (L : Libs T) (online : bool)
    (center_point : option (T * T)) (dist : Z) : Graph T :=
  if ox L && online then
    let center := default default_center center_point in
    match ox_graph_from_point L center dist with
    | Ok G => GNx G
    | Raise _ => build_grid_graph L 10 center_point
    end
  else build_grid_graph L 10 center_point.

(** Yield shapely geometry-like objects from various hazard inputs. *)
Definition _iter_hazard_geoms (L : Libs T) (hazard_polygons : Hazards)
  : list geom :=
  match hazard_polygons with
  | HNone => []
  | HFrame geometry => geometry
  | HList items =>
      item ← items;
      match item with
      | ItemGeometry h => if shapely L then [Shapely h] else []
      | ItemGeoJSON j =>
          if shapely L then
            match shape L j with
            | Ok h => [Shapely h]
            | Raise _ => []
            end
          else []
      | ItemOther => []
      end
  | HOther => []
  end.

(** [d.get(k1, d.get(k2, None))]. *)
Definition get2 (d : gmap string (pyval T)) (k1 k2 : string)
  : option (pyval T) :=
  match d !! k1 with
  | Some v => Some v
  | None => d !! k2
  end.

(** The fallback coordinates of an edge endpoint: the tuple itself when the
    node is a tuple of numbers, its ["y"] and ["x"] attributes otherwise. *)
Definition endpoint_lat_lon (attrs : gmap string (pyval T)) (n : Node)
  : result (T * T) :=
  match n with
  | NTuple i j => Ok (of_int i, of_int j)
  | NId _ =>
      lat ← to_float (default (VFloat (of_int 0)) (attrs !! "y"));
      lon ← to_float (default (VFloat (of_int 0)) (attrs !! "x"));
      Ok (lat, lon)
  end.

(** The midpoint [Point(x, y)] of an edge, [None] when it cannot be had;
    [Raise] when an exception reaches the handler of the loop body. *)
Definition edge_midpoint (L : Libs T) (G : NxGraph T)
    (e : Node * Node * EdgeData T) : result (option (T * T)) :=
  let '(u, v, data) := e in
  let midpoint :=
    match e_centroid data with
    | Some (Ok c) => Some c
    | _ => None
    end in
  match midpoint with
  | Some c => Ok (Some c)
  | None =>
      (* nodes may store x,y or lon,lat or coord *)
      au ← nodes_get G u;
      av ← nodes_get G v;
      match get2 au "x" "lon", get2 au "y" "lat",
            get2 av "x" "lon", get2 av "y" "lat" with
      | Some ux, Some uy, Some vx, Some vy =>
          Ok (try_except
                (ux ← to_float ux; vx ← to_float vx;
                 uy ← to_float uy; vy ← to_float vy;
                 let mid_lon := ((ux + vx) / of_int 2)%py in
                 let mid_lat := ((uy + vy) / of_int 2)%py in
                 Ok (if shapely L then Some (mid_lon, mid_lat) else None))
                None)
      | _, _, _, _ =>
          Ok (try_except
                ('(u_lat, u_lon) ← endpoint_lat_lon au u;
                 '(v_lat, v_lon) ← endpoint_lat_lon av v;
                 let mid_lat := ((u_lat + v_lat) / of_int 2)%py in
                 let mid_lon := ((u_lon + v_lon) / of_int 2)%py in
                 Ok (if shapely L then Some (mid_lon, mid_lat) else None))
                None)
      end
  end.

(** Whether the loop over the hazard geometries reaches one that contains
    the midpoint; a geometry without [contains], or whose test raises, is
    passed over. *)
Fixpoint some_contains (L : Libs T) (geoms : list geom) (midpoint : T * T)
  : bool :=
  match geoms with
  | [] => false
  | poly :: rest =>
      match poly with
      | Shapely h =>
          match contains L h midpoint with
          | Ok true => true
          | _ => some_contains L rest midpoint
          end
      | NotGeometry => some_contains L rest midpoint
      end
  end.

(** One iteration of the loop over [G.edges(data=True)]. *)
Definition block_edge (L : Libs T) (G : NxGraph T) (geoms : list geom)
    (st : NxGraph T * Z) (e : Node * Node * EdgeData T) : NxGraph T * Z :=
  match edge_midpoint L G e with
  | Raise _ => st
  | Ok None => st
  | Ok (Some midpoint) =>
      if some_contains L geoms midpoint then
        match remove_edge st.1 e.1.1 e.1.2 with
        | Ok G2 => (G2, (st.2 + 1)%Z)
        | Raise _ => st
        end
      else st
  end.

(** Remove edges whose midpoint lies inside hazard polygons.
    Returns a tuple [(G_modified, blocked_count)]. *)
Definition block_edges_by_hazards (L : Libs T) (G : Graph T)
    (hazard_polygons : Hazards) : Graph T * Z :=
  match G, hazard_polygons with
  | GNone, _ => (G, 0%Z)
  | _, HNone => (G, 0%Z)
  | _, _ =>
      let geoms := _iter_hazard_geoms L hazard_polygons in
      match geoms with
      | [] => (G, 0%Z)
      | _ :: _ =>
          match G with
          | GNx g =>
              if nx L then
                let st := foldl (block_edge L g geoms) (g, 0%Z) (edges g) in
                (GNx st.1, st.2)
              else (G, 0%Z)
          | _ => (G, 0%Z)
          end
      end
  end.

(** The coordinates [_nearest_node_in_graph] gives a node. *)
Definition nearest_node_coord (G : NxGraph T) (n : Node) : result (T * T) :=
  match n with
  | NTuple i j => Ok (of_int i, of_int j)
  | NId _ =>
      attrs ← nodes_get G n;
      y ← to_float (default (VFloat (of_int 0)) (attrs !! "y"));
      x ← to_float (default (VFloat (of_int 0)) (attrs !! "x"));
      Ok (y, x)
  end.

(** One iteration of the scan.  [best_d] is [None] while it is
    [float("inf")], which a distance replaces when it is below it; an
    exception skips the node. *)
Definition nearest_step (L : Libs T) (G : NxGraph T) (coord : T * T)
    (st : option Node * option T) (n : Node) : option Node * option T :=
  match (node_coord ← nearest_node_coord G n;
         _haversine_km (math L) coord node_coord) with
  | Raise _ => st
  | Ok d =>
      match st.2 with
      | None => if flt_inf d then (Some n, Some d) else st
      | Some best_d => if (d <? best_d)%py then (Some n, Some d) else st
      end
  end.

(** Return a node id nearest to coord for networkx graphs; for dict
    fallback return coord. *)
Definition _nearest_node_in_graph (L : Libs T) (G : Graph T) (coord : T * T)
  : node_ref T :=
  match G with
  | GNx g =>
      if nx L then
        match (foldl (nearest_step L g coord) (None, None) (nodes g).*1).1 with
        | Some best => RefNode best
        | None => RefCoord coord
        end
      else RefCoord coord
  | _ => RefCoord coord
  end.

(** The coordinates [compute_shortest_path] gives a node of the path. *)
Definition path_coord (G : NxGraph T) (origin : T * T) (node : Node)
  : result (T * T) :=
  match node with
  | NTuple i j => Ok (of_int i, of_int j)
  | NId _ =>
      attrs ← nodes_get G node;
      lat ← to_float (default (VFloat origin.1) (attrs !! "y"));
      lon ← to_float (default (VFloat origin.2) (attrs !! "x"));
      Ok (lat, lon)
  end.

(** The search of [compute_shortest_path]: weighted, and unweighted when the
    weighted search raises; with the number of searches run. *)
Definition search (L : Libs T) (G : NxGraph T) (src dst : node_ref T)
    (weight : string) : result (list Node) * nat :=
  match nx_shortest_path L G src dst (Some weight) with
  | Ok path => (Ok path, 1%nat)
  | Raise _ => (nx_shortest_path L G src dst None, 2%nat)
  end.

(** Compute shortest path. Returns list of (lat, lon) tuples.  Falls back to
    straight-line interpolation on error.  The second component counts the
    calls of [nx.shortest_path] made on the way. *)
Definition compute_shortest_path (L : Libs T) (G : Graph T)
    (origin target : T * T) (weight : string) : list (T * T) * nat :=
  match G with
  | GNone => (grid_route_fallback origin target 30, 0%nat)
  | GNx g =>
      if nx L then
        let src := _nearest_node_in_graph L G origin in
        let dst := _nearest_node_in_graph L G target in
        let found := search L g src dst weight in
        (try_except
           (path ← found.1;
            coords ← mapM (path_coord g origin) path;
            Ok (match coords with
                | [] => grid_route_fallback origin target 30
                | _ :: _ => coords
                end))
           (grid_route_fallback origin target 30),
         found.2)
      else (grid_route_fallback origin target 30, 0%nat)
  | _ =>
      (* dict fallback *)
      (grid_route_fallback origin target 30, 0%nat)
  end.

(** For demo, same as shortest path. *)
Definition compute_fastest_path (L : Libs T) (G : Graph T)
    (origin target : T * T) : list (T * T) * nat :=
  compute_shortest_path L G origin target "length".

(** Safest path: remove edges near hazards and compute the shortest path on
    the pruned graph. *)
Definition compute_safest_path (L : Libs T) (G : Graph T)
    (origin target : T * T) (hazards : Hazards) : list (T * T) * nat :=
  match G with
  | GNone => (grid_route_fallback origin target 30, 0%nat)
  | _ =>
      let pruned := block_edges_by_hazards L G hazards in
      let G_use := match pruned.1 with GNone => G | G_pruned => G_pruned end in
      compute_shortest_path L G_use origin target "length"
  end.

(** ** app.py: the routing block

    [G] is what [safe_load_graph] returned.  None of the calls of the block
    raises here, so its [except] branch is left out. *)
Definition route_block (L : Libs T) (G : Graph T) (hazards : Hazards)
    (effective_route_mode : string) (origin target_coord : T * T)
  : list (T * T) * nat :=
  match G with
  | GNone => (grid_route_fallback origin target_coord 30, 0%nat)
  | _ =>
      let G_blocked :=
        match hazards with
        | HNone => G
        | _ => let pruned := block_edges_by_hazards L G hazards in
               GPair pruned.1 pruned.2
        end in
      let planned :=
        if String.eqb effective_route_mode "Shortest" then
          compute_shortest_path L G_blocked origin target_coord "length"
        else if String.eqb effective_route_mode "Fastest" then
          compute_fastest_path L G_blocked origin target_coord
        else if String.eqb effective_route_mode "Safest" then
          compute_safest_path L G_blocked origin target_coord hazards
        else (grid_route_fallback origin target_coord 30, 0%nat) in
      if (length planned.1 <? 2)%nat
      then (grid_route_fallback origin target_coord 30, planned.2)
      else planned
  end.

End Routing.

(** ** app.py: risk scoring and fusion, and the risk history *)

(** [configs/thresholds.yaml] as the two scorers find it: not there; there,
    but opening or parsing it raises; or parsed to a table of tables. *)
Inductive thresholds_file (T : Type) : Type :=
  | FileAbsent
  | FileUnreadable
  | FileParsed (t : gmap string (gmap string T)).
Arguments FileAbsent {T}.
Arguments FileUnreadable {T}.
Arguments FileParsed {T} t.

Record assessment (T : Type) : Type := {
  a_disaster_score : T;
  a_crowd_score : T;
  a_severity : string;
  a_recommendations : list string
}.
Arguments a_disaster_score {T} _.
Arguments a_crowd_score {T} _.
Arguments a_severity {T} _.
Arguments a_recommendations {T} _.

Section Assessment.
Context {T : Type} `{PyFloat T}.

(** [risk_disaster.score_disaster(weather, trigger_flood)] as the
    application calls it: [_load_thresholds] opens the file when it exists,
    and what that raises leaves [score_disaster]. *)
Definition app_score_disaster (file : thresholds_file T)
    (weather : gmap string T) (trigger_flood : bool)
  : result (T * list (driver T)) :=
  match file with
  | FileAbsent => RiskDisaster.score_disaster None weather trigger_flood None
  | FileUnreadable => Raise "OSError"
  | FileParsed t =>
      RiskDisaster.score_disaster (Some t) weather trigger_flood None
  end.

(** [risk_crowd.score_crowd(crowd_sim, trigger_crowd)]: the area is the
    default, 1000.0, and [_load_thresholds] takes the defaults whenever
    opening or parsing raises.  [safe_load_crowd] rescales the people
    column before, so the counts the application passes are floats; they
    are kept as the int64 column of [DataFrame] here, and what is proved of
    the assessment holds for every density. *)
Definition app_score_crowd (file : thresholds_file T)
    (crowd_sim : option DataFrame) (trigger_crowd : bool)
  : result (T * list (driver T)) :=
  RiskCrowd.score_crowd
    (match file with FileParsed t => Some t | _ => None end)
    crowd_sim trigger_crowd (of_int 1000) None.

(** Risk scoring and fusion: each scorer under its own [try]; a scorer
    that raises counts as the score 0.0. *)
Definition assess (file : thresholds_file T) (weather : gmap string T)
    (trigger_flood : bool) (crowd_sim : option DataFrame)
    (trigger_crowd : bool) (i18n : option (gmap string string))
  : assessment T :=
  let disaster_score :=
    match app_score_disaster file weather trigger_flood with
    | Ok r => r.1
    | Raise _ => of_int 0
    end in
  let crowd_score :=
    match app_score_crowd file crowd_sim trigger_crowd with
    | Ok r => r.1
    | Raise _ => of_int 0
    end in
  let '(severity, recommendations) := fuse disaster_score crowd_score i18n in
  {| a_disaster_score := disaster_score; a_crowd_score := crowd_score;
     a_severity := severity; a_recommendations := recommendations |}.

End Assessment.

(** Update risk history: append, and keep the last 100 entries. *)
Definition update_risk_history {A} (risk_history : list A) (entry : A)
  : list A :=
  let risk_history := risk_history ++ [entry] in
  if (100 <? length risk_history)%nat
  then drop (length risk_history - 100) risk_history
  else risk_history.

(** ** app.py: the voice navigation

    Over exact numbers, with the [math] module as for the routing;
    [degrees] is [math.degrees]. *)

Module Narrator.

(** A navigation instruction: the dictionary [generate_voice_navigation]
    appends; ["bearing"] and ["remaining"] are there for a turn only. *)
Record instruction : Type := {
  i_type : string;
  i_text : list (piece Q);
  i_distance : Q;
  i_bearing : option Q;
  i_remaining : option Q;
  i_priority : string
}.

(** [str.lower] on the ASCII text of the directions. *)
Definition lower_ascii (c : Ascii.ascii) : Ascii.ascii :=
  let n := Ascii.nat_of_ascii c in
  if (65 <=? n)%nat && (n <=? 90)%nat then Ascii.ascii_of_nat (n + 32) else c.

Fixpoint lower (s : string) : string :=
  match s with
  | EmptyString => EmptyString
  | String c rest => String (lower_ascii c) (lower rest)
  end.

(** [int(x)]: truncation toward zero. *)
Definition py_int (x : Q) : Z :=
  if Qle_bool 0 x then Qfloor x else Qceiling x.

(** [l[i]] for an index that is not negative. *)
Definition index {A} (l : list A) (i : nat) : result A :=
  match l !! i with
  | Some x => Ok x
  | None => Raise "IndexError"
  end.

(** [range(0, stop, step)] for a positive step: its length is
    [(stop + step - 1) // step]. *)
Definition range_step (stop step : nat) : list nat :=
  (fun k => k * step)%nat <$> seq 0 ((stop + step - 1) / step).

(** A loop whose body may raise. *)
Fixpoint for_each {S A} (body : S -> A -> result S) (st : S) (l : list A)
  : result S :=
  match l with
  | [] => Ok st
  | x :: rest => st' ← body st x; for_each body st' rest
  end.

(** [haversine_km] of app.py. *)
Definition haversine_km (M : Math Q) (p1 p2 : Q * Q) : result Q :=
  let '(lat1, lon1) := p1 in
  let '(lat2, lon2) := p2 in
  let R := 6371%Q in
  let dlat := math_radians M (lat2 - lat1)%Q in
  let dlon := math_radians M (lon2 - lon1)%Q in
  let sq x := (x * x)%Q in
  let a := (sq (math_sin M (dlat / 2))
            + math_cos M (math_radians M lat1)
              * math_cos M (math_radians M lat2)
              * sq (math_sin M (dlon / 2)))%Q in
  s1 ← math_sqrt M a;
  s2 ← math_sqrt M (1 - a)%Q;
  let c := (2 * math_atan2 M s1 s2)%Q in
  Ok (R * c)%Q.

(** Calculate bearing between two points in degrees. *)
Definition calculate_bearing (M : Math Q) (degrees : Q -> Q) (p1 p2 : Q * Q)
  : Q :=
  let lat1 := math_radians M p1.1 in
  let lon1 := math_radians M p1.2 in
  let lat2 := math_radians M p2.1 in
  let lon2 := math_radians M p2.2 in
  let dlon := (lon2 - lon1)%Q in
  let y := (math_sin M dlon * math_cos M lat2)%Q in
  let x := (math_cos M lat1 * math_sin M lat2
            - math_sin M lat1 * math_cos M lat2 * math_cos M dlon)%Q in
  let bearing := degrees (math_atan2 M y x) in
  Qmod (bearing + 360)%Q 360.

(** The two points of the segment that starts at index [i]. *)
Definition segment_points (route : list (Q * Q)) (segment_size i : nat)
  : result ((Q * Q) * (Q * Q)) :=
  current ← index route i;
  next_point ←
    (if (length route <=? i + segment_size)%nat
     then index route (length route - 1)
     else index route (Nat.min (i + segment_size) (length route - 1)));
  Ok (current, next_point).

(** The state of the loop: the instructions so far, the previous bearing
    and the cumulative distance. *)
Definition nav_state : Type := list instruction * option Q * Q.

Definition nav_step (M : Math Q) (degrees : Q -> Q) (route : list (Q * Q))
    (segment_size : nat) (dist_km : Q) (st : nav_state) (i : nat)
  : result nav_state :=
  let '(instructions, prev_bearing, cumulative_distance) := st in
  '(current, next_point) ← segment_points route segment_size i;
  d ← haversine_km M current next_point;
  let distance_seg := (d * 1000)%Q in
  let cumulative_distance := (cumulative_distance + distance_seg)%Q in
  if (distance_seg <? 5)%py then
    Ok (instructions, prev_bearing, cumulative_distance)
  else
    let bearing := calculate_bearing M degrees current next_point in
    let direction := segment_direction prev_bearing bearing in
    let distance_text :=
      if (distance_seg <? 100)%py then
        [FmtInt (py_int distance_seg); Lit " meters"]
      else if (distance_seg <? 1000)%py then
        [FmtInt (py_int distance_seg); Lit " meters"]
      else [Fmt (distance_seg / 1000)%Q ".1f"; Lit " kilometers"] in
    let remaining_dist := (dist_km * 1000 - cumulative_distance)%Q in
    let remaining_text :=
      if (remaining_dist >? 1000)%py then
        [Lit " "; Fmt (remaining_dist / 1000)%Q ".1f";
         Lit " kilometers remaining"]
      else if (remaining_dist >? 0)%py then
        [Lit " "; FmtInt (py_int remaining_dist); Lit " meters remaining"]
      else [] in
    let instruction_text :=
      [Lit "In "] ++ distance_text
      ++ [Lit ", "; Lit (lower direction); Lit "."] ++ remaining_text in
    Ok (instructions ++
          [{| i_type := "turn"; i_text := instruction_text;
              i_distance := distance_seg; i_bearing := Some bearing;
              i_remaining := Some remaining_dist;
              i_priority := "normal" |}],
        Some bearing, cumulative_distance).

(** Generate GPS-like turn-by-turn voice navigation instructions from
    route. *)
Definition generate_voice_navigation (M : Math Q) (degrees : Q -> Q)
    (route : list (Q * Q)) (target_name : string) (dist_km : Q) (eta_min : Z)
  : result (list instruction) :=
  if (length route <? 2)%nat then Ok []
  else
    let start :=
      {| i_type := "start";
         i_text := [Lit "Navigation started. Proceed to "; Lit target_name;
                    Lit ". Total distance is "; Fmt dist_km ".1f";
                    Lit " kilometers. Estimated travel time is ";
                    FmtInt eta_min;
                    Lit " minutes. Follow the route and avoid hazards."];
         i_distance := 0; i_bearing := None; i_remaining := None;
         i_priority := "high" |} in
    let segment_size := Nat.max 1 (length route / 15) in
    st ← for_each (nav_step M degrees route segment_size dist_km)
                  ([start], None, 0%Q)
                  (range_step (length route - 1) segment_size);
    let instructions := st.1.1 in
    let instructions :=
      if (0 <? length instructions)%nat then
        instructions ++
          [{| i_type := "approach";
              i_text := [Lit "You are approaching "; Lit target_name;
                         Lit ". Prepare to arrive."];
              i_distance := 0; i_bearing := None; i_remaining := None;
              i_priority := "high" |}]
      else instructions in
    Ok (instructions ++
          [{| i_type := "arrival";
              i_text := [Lit "You have arrived at "; Lit target_name;
                         Lit ". Navigation complete. Stay safe."];
              i_distance := 0; i_bearing := None; i_remaining := None;
              i_priority := "high" |}]).

End Narrator.

(** ** A concrete set of libraries, for the examples

    The theorems below hold for every [Libs].  The concrete inputs of the
    examples need one to evaluate on: networkx and shapely present, osmnx
    absent; [nx.shortest_path] as a breadth-first search; hazard [h] as the
    open square of side 3/2 centred at [(h, h)]; and the [math] module in
    fixed point, by truncated series and the integer square root.  No
    statement depends on the accuracy of that arithmetic. *)

Definition fixed (q : Q) : Q :=
  Qfloor (q * 1000000000000000000) # 1000000000000000000.

Definition demo_math : Math Q := {|
  math_radians x := fixed (x * (355 # 113) / 180);
  math_sin x := fixed (x - x * x * x / 6);
  math_cos x := fixed (1 - x * x / 2);
  math_sqrt x :=
    if Qle_bool 0 x
    then Ok (Z.sqrt (Qfloor (x * 1000000000000000000)) # 1000000000)
    else Raise "ValueError";
  math_atan2 y x :=
    if Qle_bool x 0 then 355 # 226
    else fixed (y / x - (y / x) * (y / x) * (y / x) / 3)
|}%Q.

(** [math.degrees], in the same fixed point. *)
Definition demo_degrees (x : Q) : Q := fixed (x * 180 * (113 # 355))%Q.

Definition neighbours {T} (g : NxGraph T) (n : Node) : list Node :=
  e ← edges g;
  if bool_decide (e.1.1 = n) then [e.1.2]
  else if negb (directed g) && bool_decide (e.1.2 = n) then [e.1.1]
  else [].

(** Breadth-first search; a path is kept reversed, its last node first. *)
Fixpoint bfs {T} (g : NxGraph T) (fuel : nat) (frontier : list (list Node))
    (seen : list Node) (dst : Node) : result (list Node) :=
  match find (fun p => bool_decide (head p = Some dst)) frontier with
  | Some p => Ok (reverse p)
  | None =>
      match fuel with
      | O => Raise "NetworkXNoPath"
      | S fuel' =>
          let next :=
            foldl (fun (acc : list (list Node) * list Node) p =>
                     match p with
                     | [] => acc
                     | n :: _ =>
                         let fresh :=
                           filter (fun m => m ∉ acc.2)
                                  (remove_dups (neighbours g n)) in
                         (acc.1 ++ ((fun m => m :: p) <$> fresh),
                          acc.2 ++ fresh)
                     end) ([], seen) frontier in
          match next.1 with
          | [] => Raise "NetworkXNoPath"
          | _ :: _ => bfs g fuel' next.1 next.2 dst
          end
      end
  end.

Definition hop_shortest_path {T} (g : NxGraph T) (src dst : node_ref T)
    (weight : option string) : result (list Node) :=
  match src, dst with
  | RefNode s, RefNode t =>
      if bool_decide (s ∈ (nodes g).*1 ∧ t ∈ (nodes g).*1)
      then bfs g (length (nodes g)) [[s]] [s] t
      else Raise "NodeNotFound"
  | _, _ => Raise "NodeNotFound"
  end.

Definition demo_libs : Libs Q := {|
  nx := true;
  ox := false;
  shapely := true;
  math := demo_math;
  nx_shortest_path := hop_shortest_path;
  ox_graph_from_point := fun _ _ => Raise "ConnectionError";
  shape := fun j => Ok j;
  contains := fun h p =>
    let c := inject_Z (Z.of_nat h) in
    Ok (negb (Qle_bool p.1 (c - 3 / 4)) && negb (Qle_bool (c + 3 / 4) p.1)
        && negb (Qle_bool p.2 (c - 3 / 4)) && negb (Qle_bool (c + 3 / 4) p.2))
|}%Q.

(** A graph of one street node, at (10, 76). *)
Definition one_node_graph : NxGraph Q := {|
  directed := false;
  nodes := [(NId 1, {[ "y" := VFloat 10%Q; "x" := VFloat 76%Q ]})];
  edges := []
|}.

(** The offline lattice of side 3, and a hazard around its middle node. *)
Definition small_grid : Graph Q := build_grid_graph demo_libs 3 None.
Definition middle_hazard : Hazards := HList [ItemGeometry 1; ItemOther].

(** The networkx graph of a graph argument. *)
Definition grid_of (G : Graph Q) : NxGraph Q :=
  match G with GNx g => g | _ => one_node_graph end.

Definition small_grid_nx : NxGraph Q := grid_of small_grid.

(** Three points some hundred metres apart. *)
Definition short_walk : list (Q * Q) :=
  [(10, 76); (10.001, 76.001); (10.002, 76.001)]%Q.

(** ** Notions used by the statements *)

(** Point [i] of the straight line of 30 steps, as the specification words
    it: origin + (i/30) * (target - origin). *)
Definition interpolation_point (origin target : Q * Q) (i : Z) : Q * Q :=
  (origin.1 + (inject_Z i / 30) * (target.1 - origin.1),
   origin.2 + (inject_Z i / 30) * (target.2 - origin.2))%Q.

(** A call returns, and its value satisfies [P]. *)
Definition returns {A} (r : result A) (P : A -> Prop) : Prop :=
  match r with
  | Ok a => P a
  | Raise _ => False
  end.

(** The tier label as a function of the combined score alone. *)
Definition tier_of_combined (m : Q) : string :=
  if (m <? dec 2 1)%py then "Low"
  else if (m <? dec 5 1)%py then "Medium"
  else if (m <? dec 8 1)%py then "High"
  else "Critical".

(** The rainfall and wind terms of [score_disaster] under the default
    thresholds. *)
Definition rain_points (rainfall : Q) (flood : bool) : Q :=
  if (rainfall >=? of_int 50)%py || flood then dec 6 1
  else if (rainfall >=? of_int 25)%py then dec 3 1
  else 0%Q.

Definition wind_points (wind : Q) : Q :=
  if (wind >=? of_int 80)%py then dec 4 1
  else if (wind >=? of_int 40)%py then dec 15 2
  else 0%Q.

(** The nodes of a graph argument with the position each carries: the
    ["coord"] attribute in a networkx graph, ["pos"] in the dict fallback. *)
Definition node_positions {T} `{PyFloat T} (G : Graph T)
  : list (Node * option (T * T)) :=
  match G with
  | GNx g =>
      (fun na : Node * gmap string (pyval T) =>
         (na.1, match na.2 !! "coord" with
                | Some (VPair a b) => Some (a, b)
                | _ => None
                end)) <$> nodes g
  | GDict dnodes _ =>
      (fun np : Node * (Z * Z) =>
         (np.1, Some (of_int np.2.1, of_int np.2.2))) <$> dnodes
  | GNone | GPair _ _ => []
  end.

(** The position [build_grid_graph] gives the node [(i, j)] of a lattice of
    side [size] around [center]. *)
Definition offset_position (center : Q * Q) (size : nat) (i j : Z) : Q * Q :=
  (center.1 + inject_Z (i - Z.of_nat size / 2) * 0.005,
   center.2 + inject_Z (j - Z.of_nat size / 2) * 0.005)%Q.

(** Two positions are the same numbers. *)
Definition same_position (p q : Q * Q) : Prop :=
  (p.1 == q.1 /\ p.2 == q.2)%Q.

(** Scenario A: rainfall 180 mm, wind 80 kph. *)
Definition weather_A {T} `{PyFloat T} : gmap string T :=
  {[ "rainfall_mm" := of_int 180; "wind_kph" := of_int 80 ]}.

(** ** Further notions used by the statements *)

(** The key under which [fuse] looks the label of a tier up. *)
Definition tier_key (label : string) : string :=
  if String.eqb label "Low" then "low"
  else if String.eqb label "Medium" then "medium"
  else if String.eqb label "High" then "high"
  else "critical".

(** Whether the loop body of [block_edges_by_hazards] finds the midpoint of
    an edge inside a hazard. *)
Definition edge_hit {T} `{PyFloat T} (L : Libs T) (G : NxGraph T)
    (geoms : list geom) (e : Node * Node * EdgeData T) : bool :=
  match edge_midpoint L G e with
  | Ok (Some midpoint) => some_contains L geoms midpoint
  | _ => false
  end.

(** The distance [_nearest_node_in_graph] computes for a node. *)
Definition node_distance {T} `{PyFloat T} (L : Libs T) (G : NxGraph T)
    (coord : T * T) (n : Node) : result T :=
  node_coord ← nearest_node_coord G n;
  _haversine_km (math L) coord node_coord.

(** A turn instruction as the loop of [generate_voice_navigation] appends
    it: a segment of at least 5 metres, a bearing in [0, 360), the remaining
    distance, normal priority. *)
Definition is_turn (ins : Narrator.instruction) : Prop :=
  Narrator.i_type ins = "turn" /\ Narrator.i_priority ins = "normal" /\
  (5 <= Narrator.i_distance ins)%Q /\
  (exists b, Narrator.i_bearing ins = Some b /\ (0 <= b < 360)%Q) /\
  is_Some (Narrator.i_remaining ins).

(** * Theorems *)

(** ** Exact arithmetic: the comparisons of the [Q] instance *)

Local Open Scope Q_scope.

Lemma Q_fltb_lt (a b : Q) : (a <? b)%py = true <-> a < b.
Proof.
  cbn. rewrite negb_true_iff, <- not_true_iff_false, Qle_bool_iff.
  split; [apply Qnot_le_lt | apply Qlt_not_le].
Qed.

Lemma Q_fltb_ge (a b : Q) : (a <? b)%py = false <-> b <= a.
Proof.
  cbn. rewrite negb_false_iff. apply Qle_bool_iff.
Qed.

Lemma Q_fleb_le (a b : Q) : (a <=? b)%py = true <-> a <= b.
Proof. cbn. apply Qle_bool_iff. Qed.

Lemma Q_fleb_gt (a b : Q) : (a <=? b)%py = false <-> b < a.
Proof.
  cbn. rewrite <- not_true_iff_false, Qle_bool_iff.
  split; [apply Qnot_le_lt | apply Qlt_not_le].
Qed.

Lemma Q_dec_value (m : Z) (e : nat) :
  (dec m e : Q) == inject_Z m / inject_Z (10 ^ Z.of_nat e).
Proof. reflexivity. Qed.

(** Case analysis on every comparison of the goal, each turned into an
    order fact over [Q]. *)
Ltac q_cases :=
  repeat match goal with
  | |- context [(?a <? ?b)%py] =>
      let E := fresh "E" in
      destruct (a <? b)%py eqn:E;
      [apply Q_fltb_lt in E | apply Q_fltb_ge in E]
  | |- context [(?a <=? ?b)%py] =>
      let E := fresh "E" in
      destruct (a <=? b)%py eqn:E;
      [apply Q_fleb_le in E | apply Q_fleb_gt in E]
  end.

(** Closed order facts over [Q], by evaluation. *)
Ltac q_eval :=
  repeat split; vm_compute;
  first [reflexivity | let E := fresh in intro E; discriminate E].

Ltac q_consts :=
  repeat match goal with
  | H : context [@dec Q _ ?m ?e] |- _ =>
      let v := eval cbv in (@dec Q _ m e) in
      change (@dec Q _ m e) with v in H
  end.

(** ** Fusion *)

Lemma combined_score_Qmax (d c : Q) :
  combined_score d c == Qmax d (c * 0.9).
Proof.
  unfold combined_score, pymax.
  assert (Hx : (c * dec 9 1)%py == c * 0.9) by reflexivity.
  destruct (d <? c * dec 9 1)%py eqn:E;
    [apply Q_fltb_lt in E | apply Q_fltb_ge in E]; rewrite Hx in *.
  - symmetry. apply Q.max_r. lra.
  - symmetry. apply Q.max_l. lra.
Qed.

Lemma fuse_tier (d c : Q) :
  fst (fuse d c None) = tier_of_combined (combined_score d c).
Proof.
  unfold fuse, tier_of_combined.
  repeat match goal with |- context [if ?b then _ else _] => destruct b end;
    reflexivity.
Qed.

Lemma tier_of_combined_spec (m : Q) :
  (m < 0.2 -> tier_of_combined m = "Low") /\
  (0.2 <= m < 0.5 -> tier_of_combined m = "Medium") /\
  (0.5 <= m < 0.8 -> tier_of_combined m = "High") /\
  (0.8 <= m -> tier_of_combined m = "Critical").
Proof.
  unfold tier_of_combined.
  q_cases; q_consts; repeat split; intros; try reflexivity; lra.
Qed.

Lemma tier_of_combined_proper (m1 m2 : Q) :
  m1 == m2 -> tier_of_combined m1 = tier_of_combined m2.
Proof.
  intros E. unfold tier_of_combined.
  q_cases; q_consts; try reflexivity; lra.
Qed.

Lemma tier_of_combined_mono (m1 m2 : Q) :
  m1 <= m2 -> tier_le (tier_of_combined m1) (tier_of_combined m2).
Proof.
  intros L. unfold tier_of_combined.
  q_cases; q_consts; try (cbv; lia); lra.
Qed.

(** C2. [fuse] takes [combined = max(disaster_score, crowd_score * 0.9)] and
    returns Low below 0.2, Medium in [0.2, 0.5), High in [0.5, 0.8) and
    Critical from 0.8 on, with the English labels when no i18n table is
    given; [fuse(0.1, 0.1)] is Low and [fuse(0.0, 0.9)] is Critical, in exact
    arithmetic and in binary64. *)
Theorem C2_fuse_tiers :
  (forall d c : Q,
      combined_score d c == Qmax d (c * 0.9) /\
      (Qmax d (c * 0.9) < 0.2 -> fst (fuse d c None) = "Low") /\
      (0.2 <= Qmax d (c * 0.9) < 0.5 -> fst (fuse d c None) = "Medium") /\
      (0.5 <= Qmax d (c * 0.9) < 0.8 -> fst (fuse d c None) = "High") /\
      (0.8 <= Qmax d (c * 0.9) -> fst (fuse d c None) = "Critical")) /\
  fst (fuse (0.1 : Q) 0.1 None) = "Low" /\
  fst (fuse (0 : Q) 0.9 None) = "Critical" /\
  fst (fuse 0.1%float 0.1%float None) = "Low" /\
  fst (fuse 0%float 0.9%float None) = "Critical".
Proof.
  split.
  - intros d c. split; [apply combined_score_Qmax |].
    rewrite fuse_tier.
    rewrite (tier_of_combined_proper _ _ (combined_score_Qmax d c)).
    apply tier_of_combined_spec.
  - repeat split; vm_compute; reflexivity.
Qed.

Lemma C2_fuse_tiers_witness :
  fst (fuse (0.3 : Q) 0.1 None) = "Medium".
Proof.
  destruct C2_fuse_tiers as [H _].
  destruct (H 0.3 0.1) as (_ & _ & HM & _).
  apply HM. q_eval.
Defined.

Lemma combined_score_mono (d1 d2 c1 c2 : Q) :
  d1 <= d2 -> c1 <= c2 -> combined_score d1 c1 <= combined_score d2 c2.
Proof.
  intros Ld Lc. rewrite !combined_score_Qmax.
  apply Q.max_le_compat; lra.
Qed.

(** C7. [fuse] is monotonic in each argument for the order
    Low < Medium < High < Critical: raising the disaster score with the crowd
    score fixed, or the crowd score with the disaster score fixed, never
    lowers the tier. *)
Theorem C7_fuse_monotone :
  (forall d1 d2 c : Q,
      d1 <= d2 -> tier_le (fst (fuse d1 c None)) (fst (fuse d2 c None))) /\
  (forall d c1 c2 : Q,
      c1 <= c2 -> tier_le (fst (fuse d c1 None)) (fst (fuse d c2 None))).
Proof.
  split; intros; rewrite !fuse_tier; apply tier_of_combined_mono;
    apply combined_score_mono; lra.
Qed.

Lemma C7_fuse_monotone_witness :
  tier_le (fst (fuse (0.1 : Q) 0.3 None)) (fst (fuse (0.6 : Q) 0.3 None)) /\
  tier_le (fst (fuse (0.1 : Q) 0.3 None)) (fst (fuse (0.1 : Q) 0.95 None)).
Proof.
  destruct C7_fuse_monotone as [Hd Hc]. split.
  - apply Hd. q_eval.
  - apply Hc. q_eval.
Defined.

(** ** Disaster scoring *)

Lemma bind_Ok {A B} (a : A) (k : A -> result B) : (Ok a ≫= k) = k a.
Proof. reflexivity. Qed.

Lemma default_rain_thresholds :
  getitem (RiskDisaster._load_thresholds (T:=Q) None) "rainfall_mm"
  = Ok {[ "low" := of_int 10; "medium" := of_int 25; "high" := of_int 50 ]}.
Proof. vm_compute. reflexivity. Qed.

Lemma default_wind_thresholds :
  getitem (RiskDisaster._load_thresholds (T:=Q) None) "wind_kph"
  = Ok {[ "low" := of_int 20; "medium" := of_int 40; "high" := of_int 80 ]}.
Proof. vm_compute. reflexivity. Qed.

Lemma levels_lookup (lo me hi : Q) :
  let t : gmap string Q := {[ "low" := lo; "medium" := me; "high" := hi ]} in
  getitem t "high" = Ok hi /\ getitem t "medium" = Ok me.
Proof.
  unfold getitem. split.
  - rewrite lookup_insert_ne by done. rewrite lookup_insert_ne by done.
    rewrite lookup_singleton_eq. reflexivity.
  - rewrite lookup_insert_ne by done. rewrite lookup_insert_eq. reflexivity.
Qed.

Lemma pymin_Qmin (a b : Q) : pymin a b == Qmin a b.
Proof.
  unfold pymin.
  destruct (b <? a)%py eqn:E; [apply Q_fltb_lt in E | apply Q_fltb_ge in E].
  - symmetry. apply Q.min_r. lra.
  - symmetry. apply Q.min_l. lra.
Qed.

Lemma score_disaster_default (weather : gmap string Q) (flood : bool)
    (i18n : option (gmap string string)) :
  returns (RiskDisaster.score_disaster None weather flood i18n)
    (fun r => r.1 == Qmin 1
       (rain_points (default 0 (weather !! "rainfall_mm")) flood
        + wind_points (default 0 (weather !! "wind_kph")))).
Proof.
  unfold RiskDisaster.score_disaster.
  destruct (levels_lookup (of_int 10) (of_int 25) (of_int 50)) as [Rh Rm].
  destruct (levels_lookup (of_int 20) (of_int 40) (of_int 80)) as [Wh Wm].
  rewrite default_rain_thresholds, !bind_Ok, Rh, !bind_Ok.
  change (@of_int Q _ 0) with (0:Q).
  set (rainfall := default 0 (weather !! "rainfall_mm")).
  set (wind := default 0 (weather !! "wind_kph")).
  unfold rain_points, wind_points.
  destruct ((rainfall >=? of_int 50)%py || flood);
    [| rewrite Rm, !bind_Ok; destruct (rainfall >=? of_int 25)%py ];
    rewrite !bind_Ok, default_wind_thresholds, !bind_Ok, Wh, !bind_Ok;
    (destruct (wind >=? of_int 80)%py;
     [| rewrite Wm, !bind_Ok; destruct (wind >=? of_int 40)%py ]);
    rewrite !bind_Ok; unfold returns; cbn [fst];
    rewrite pymin_Qmin; apply Q.min_compat; try reflexivity.
  all: cbn; lra.
Qed.

Lemma rain_points_spec (rainfall : Q) (flood : bool) :
  (50 <= rainfall \/ flood = true -> rain_points rainfall flood == 0.6) /\
  (rainfall < 50 -> flood = false -> 25 <= rainfall ->
   rain_points rainfall flood == 0.3) /\
  (rainfall < 25 -> flood = false -> rain_points rainfall flood == 0).
Proof.
  unfold rain_points. change (@of_int Q _ 50) with (50:Q).
  change (@of_int Q _ 25) with (25:Q).
  destruct flood; cbn [orb]; rewrite ?orb_true_r, ?orb_false_r;
    q_cases; repeat split; intros;
    try discriminate; try reflexivity; try lra;
    match goal with H : _ \/ _ |- _ => destruct H; [lra | discriminate] end.
Qed.

Lemma wind_points_spec (wind : Q) :
  (80 <= wind -> wind_points wind == 0.4) /\
  (40 <= wind < 80 -> wind_points wind == 0.15) /\
  (wind < 40 -> wind_points wind == 0).
Proof.
  unfold wind_points. change (@of_int Q _ 80) with (80:Q).
  change (@of_int Q _ 40) with (40:Q).
  q_cases; repeat split; intros; try reflexivity; lra.
Qed.

(** C5. Under the default thresholds [score_disaster] adds 0.6 when the
    rainfall is at least 50 or the flood override is set, else 0.3 when it is
    at least 25, else nothing; adds 0.4 when the wind is at least 80, else
    0.15 when it is at least 40, else nothing; and clamps the sum to 1.  For
    rainfall 180, wind 80 and the override set the score is exactly 1.0 and
    the drivers are the severe rainfall and the high winds ones, in exact
    arithmetic and in binary64. *)
Theorem C5_score_disaster_defaults :
  (forall (weather : gmap string Q) (flood : bool)
          (i18n : option (gmap string string)),
      let rainfall := default 0 (weather !! "rainfall_mm") in
      let wind := default 0 (weather !! "wind_kph") in
      exists r w : Q,
        returns (RiskDisaster.score_disaster None weather flood i18n)
                (fun res => res.1 == Qmin 1 (r + w)) /\
        (50 <= rainfall \/ flood = true -> r == 0.6) /\
        (rainfall < 50 -> flood = false -> 25 <= rainfall -> r == 0.3) /\
        (rainfall < 25 -> flood = false -> r == 0) /\
        (80 <= wind -> w == 0.4) /\
        (40 <= wind < 80 -> w == 0.15) /\
        (wind < 40 -> w == 0)) /\
  RiskDisaster.score_disaster (T:=Q) None weather_A true None
  = Ok (1,
        [[Lit "Disaster risk"; Lit ": Severe rainfall ("; Fmt 180 "";
          Lit " mm)"];
         [Lit "High winds ("; Fmt 80 ".1f"; Lit " kph)"]]) /\
  RiskDisaster.score_disaster (T:=float) None weather_A true None
  = Ok (1%float,
        [[Lit "Disaster risk"; Lit ": Severe rainfall ("; Fmt 180%float "";
          Lit " mm)"];
         [Lit "High winds ("; Fmt 80%float ".1f"; Lit " kph)"]]) /\
  returns (RiskDisaster.score_disaster (T:=float) None weather_A true None)
          (fun res => mentions "Severe rainfall" res.2 = true /\
                      mentions "High winds" res.2 = true).
Proof.
  split; [| repeat split; vm_compute; reflexivity].
  intros weather flood i18n rainfall wind.
  exists (rain_points rainfall flood), (wind_points wind).
  split; [apply score_disaster_default |].
  destruct (rain_points_spec rainfall flood) as (R1 & R2 & R3).
  destruct (wind_points_spec wind) as (W1 & W2 & W3).
  repeat split; assumption.
Qed.

Lemma C5_score_disaster_defaults_witness :
  exists r w : Q,
    returns (RiskDisaster.score_disaster None
               {[ "rainfall_mm" := 30; "wind_kph" := 90 ]} false None)
            (fun res => res.1 == Qmin 1 (r + w)) /\ r == 0.3 /\ w == 0.4.
Proof.
  destruct C5_score_disaster_defaults as [H _].
  destruct (H {[ "rainfall_mm" := 30; "wind_kph" := 90 ]} false None)
    as (r & w & Hs & _ & Hr & _ & Hw & _).
  exists r, w. split; [exact Hs |]. split.
  - apply Hr; [q_eval | reflexivity | q_eval].
  - apply Hw. q_eval.
Defined.

(** ** Crowd scoring *)

(** C8. [score_crowd] does not raise on missing input: when the crowd data is
    [None] or empty it returns the score 0.0 with the single "no data"
    driver, and when the data has no ['people'] column it returns 0.0 with
    the single "missing column" driver; whatever the thresholds file, the
    surge trigger, the area and the numeric type. *)
Theorem C8_score_crowd_missing_data :
  forall (T : Type) (F : PyFloat T)
         (config : option (gmap string (gmap string T)))
         (trigger_surge : bool) (area_m2 : T)
         (i18n : option (gmap string string)),
    RiskCrowd.score_crowd config None trigger_surge area_m2 i18n
    = Ok (of_int 0, [[Lit (i18n_get i18n "no_data" "No crowd data")]]) /\
    (forall df : DataFrame,
        df_empty df = true ->
        RiskCrowd.score_crowd config (Some df) trigger_surge area_m2 i18n
        = Ok (of_int 0, [[Lit (i18n_get i18n "no_data" "No crowd data")]])) /\
    (forall df : DataFrame,
        df_empty df = false ->
        df_columns df !! "people" = None ->
        RiskCrowd.score_crowd config (Some df) trigger_surge area_m2 i18n
        = Ok (of_int 0,
              [[Lit (i18n_get i18n "missing_people"
                       "Missing 'people' column")]])) /\
    i18n_get None "no_data" "No crowd data" = "No crowd data" /\
    i18n_get None "missing_people" "Missing 'people' column"
    = "Missing 'people' column".
Proof.
  intros T F config trigger_surge area_m2 i18n.
  split; [reflexivity |]. split; [| split; [| split; reflexivity]].
  - intros df E. unfold RiskCrowd.score_crowd. rewrite E. reflexivity.
  - intros df E P. unfold RiskCrowd.score_crowd. rewrite E, P. reflexivity.
Qed.

Lemma C8_score_crowd_missing_data_witness :
  RiskCrowd.score_crowd (T:=Q) None
    (Some {| df_rows := 0; df_columns := {[ "people" := [] ]} |})
    false 1000 None
  = Ok (0, [[Lit "No crowd data"]]) /\
  RiskCrowd.score_crowd (T:=Q) None
    (Some {| df_rows := 2; df_columns := {[ "lat" := [10; 11]%Z ]} |})
    false 1000 None
  = Ok (0, [[Lit "Missing 'people' column"]]).
Proof.
  destruct (C8_score_crowd_missing_data Q _ None false 1000 None)
    as (_ & He & Hp & _).
  split.
  - apply (He {| df_rows := 0; df_columns := {[ "people" := [] ]} |}).
    vm_compute. reflexivity.
  - apply (Hp {| df_rows := 2; df_columns := {[ "lat" := [10; 11]%Z ]} |});
      vm_compute; reflexivity.
Defined.

(** ** The direction of a turn *)

(** Sharper literals and comparisons for goals over [Q]. *)
Ltac q_lits :=
  repeat match goal with
  | |- context [@dec Q _ ?m ?e] =>
      let v := eval cbv in (@dec Q _ m e) in
      change (@dec Q _ m e) with v
  end.

Ltac q_resolve :=
  repeat match goal with
  | |- context [(?a <? ?b)%py] =>
      first [ rewrite (proj2 (Q_fltb_lt a b)) by lra
            | rewrite (proj2 (Q_fltb_ge a b)) by lra ]
  | |- context [(?a <=? ?b)%py] =>
      first [ rewrite (proj2 (Q_fleb_le a b)) by lra
            | rewrite (proj2 (Q_fleb_gt a b)) by lra ]
  end.

Lemma Qmod_range (a b : Q) : 0 < b -> 0 <= Qmod a b < b.
Proof.
  intros Hb. unfold Qmod.
  pose proof (Qfloor_le (a / b)) as Hl.
  pose proof (Qlt_floor (a / b)) as Hu.
  assert (Ha : a == (a / b) * b) by (field; lra).
  set (f := inject_Z (Qfloor (a / b))) in *.
  assert (Hf1 : inject_Z (Qfloor (a / b) + 1) == f + 1).
  { unfold f. rewrite inject_Z_plus. reflexivity. }
  rewrite Hf1 in Hu.
  split.
  - assert (b * f <= b * (a / b)) by (apply Qmult_le_l; assumption).
    lra.
  - assert (b * (a / b) < b * (f + 1)) by (apply Qmult_lt_l; assumption).
    lra.
Qed.

(** Every turn angle lies in [0, 360). *)
Lemma turn_angle_range (bearing prev_bearing : Q) :
  0 <= turn_angle bearing prev_bearing < 360.
Proof. apply Qmod_range. reflexivity. Qed.

(** Away from 337.5 the eight buckets do partition [0, 360). *)
Lemma turn_buckets_partition_off_gap (t : Q) :
  0 <= t < 360 -> ~ t == 337.5 ->
  matching_buckets t = 1%nat /\ turn_direction t <> "Continue".
Proof.
  intros [L U] N.
  unfold matching_buckets, turn_direction, turn_buckets. q_lits.
  destruct (Qlt_le_dec t 22.5) as [?|G1];
    [q_resolve; split; [reflexivity | discriminate] |].
  destruct (Qlt_le_dec t 67.5) as [?|G2];
    [q_resolve; split; [reflexivity | discriminate] |].
  destruct (Qlt_le_dec t 112.5) as [?|G3];
    [q_resolve; split; [reflexivity | discriminate] |].
  destruct (Qlt_le_dec t 157.5) as [?|G4];
    [q_resolve; split; [reflexivity | discriminate] |].
  destruct (Qlt_le_dec t 202.5) as [?|G5];
    [q_resolve; split; [reflexivity | discriminate] |].
  destruct (Qlt_le_dec t 247.5) as [?|G6];
    [q_resolve; split; [reflexivity | discriminate] |].
  destruct (Qlt_le_dec t 292.5) as [?|G7];
    [q_resolve; split; [reflexivity | discriminate] |].
  destruct (Qlt_le_dec t 337.5) as [?|G8];
    [q_resolve; split; [reflexivity | discriminate] |].
  assert (337.5 < t).
  { apply Qle_lteq in G8. destruct G8 as [?|E]; [assumption |].
    symmetry in E. contradiction. }
  q_resolve; split; [reflexivity | discriminate].
Qed.

(** At 337.5 itself none of the eight buckets matches, whatever the
    rational that denotes it. *)
Lemma turn_buckets_gap (t : Q) :
  t == 337.5 -> matching_buckets t = 0%nat /\ turn_direction t = "Continue".
Proof.
  intros E.
  unfold matching_buckets, turn_direction, turn_buckets. q_lits.
  q_resolve. split; reflexivity.
Qed.

(** C6. The turn angle 337.5, which a bearing of 337.5 after a bearing of 0
    gives, lies in [0, 360) and matches none of the eight buckets: the chain
    falls through to the bare "Continue", in exact arithmetic and in
    binary64. *)
Theorem C6_turn_bucket_gap :
  turn_angle 337.5 0 == 337.5 /\
  0 <= turn_angle 337.5 0 < 360 /\
  matching_buckets (turn_angle 337.5 0) = 0%nat /\
  segment_direction (Some 0) 337.5 = "Continue" /\
  matching_buckets 337.5%float = 0%nat /\
  turn_direction 337.5%float = "Continue".
Proof.
  split; [reflexivity |]. split; [apply turn_angle_range |].
  repeat split; vm_compute; reflexivity.
Qed.

(** ** Routing: facts that hold for every numeric type and every library *)

Section RoutingFacts.
Context {T : Type} `{PyFloat T}.

Lemma range_length (n : nat) : length (range n) = n.
Proof. unfold range. rewrite length_fmap. apply length_seq. Qed.

Lemma grid_route_fallback_length (origin target : T * T) :
  length (grid_route_fallback origin target 30) = 31%nat.
Proof.
  destruct origin, target. unfold grid_route_fallback.
  change (30 =? 0)%Z with false. cbv iota.
  rewrite length_fmap. apply range_length.
Qed.

Lemma compute_shortest_path_fallback (L : Libs T) (G : Graph T) origin target weight :
  (forall g, G <> GNx g) ->
  compute_shortest_path L G origin target weight
  = (grid_route_fallback origin target 30, 0%nat).
Proof.
  intros N. destruct G; try reflexivity. exfalso. by eapply N.
Qed.

Lemma compute_shortest_path_nonempty (L : Libs T) (G : Graph T) origin target weight :
  (1 <= length (compute_shortest_path L G origin target weight).1)%nat.
Proof.
  pose proof (grid_route_fallback_length origin target) as Hf.
  destruct G; cbn; try lia.
  destruct (nx L); cbn; [| lia].
  destruct (search L g _ _ weight).1 as [path|]; cbn; [| lia].
  destruct (mapM _ path) as [[|c cs]|]; cbn; lia.
Qed.

Lemma compute_safest_path_nonempty (L : Libs T) (G : Graph T) origin target hz :
  (1 <= length (compute_safest_path L G origin target hz).1)%nat.
Proof.
  unfold compute_safest_path.
  destruct G; try apply compute_shortest_path_nonempty.
  cbn. rewrite grid_route_fallback_length. lia.
Qed.

Lemma route_block_length (L : Libs T) (G : Graph T) hz mode origin target :
  (2 <= length (route_block L G hz mode origin target).1)%nat.
Proof.
  pose proof (grid_route_fallback_length origin target) as Hf.
  unfold route_block.
  destruct G; cbn [fst]; try lia;
    match goal with |- context [Nat.ltb (length ?r) 2] =>
      destruct (Nat.ltb_spec (length r) 2) end; cbn [fst]; lia.
Qed.

Lemma block_edges_pair (L : Libs T) (g : Graph T) (b : Z) hz :
  (block_edges_by_hazards L (GPair g b) hz).1 = GPair g b.
Proof.
  unfold block_edges_by_hazards.
  destruct hz; try reflexivity; destruct (_iter_hazard_geoms L _); reflexivity.
Qed.

Lemma route_block_hazards (L : Libs T) (G : Graph T) hz mode origin target :
  hz <> HNone ->
  route_block L G hz mode origin target
  = (grid_route_fallback origin target 30, 0%nat).
Proof.
  intros N.
  pose proof (grid_route_fallback_length origin target) as Hf.
  assert (P : forall g b,
    (let planned :=
        if String.eqb mode "Shortest" then
          compute_shortest_path L (GPair g b) origin target "length"
        else if String.eqb mode "Fastest" then
          compute_fastest_path L (GPair g b) origin target
        else if String.eqb mode "Safest" then
          compute_safest_path L (GPair g b) origin target hz
        else (grid_route_fallback origin target 30, 0%nat) in
      if (length planned.1 <? 2)%nat
      then (grid_route_fallback origin target 30, planned.2)
      else planned) = (grid_route_fallback origin target 30, 0%nat)).
  { intros g b. cbv zeta.
    assert (S : compute_safest_path L (GPair g b) origin target hz
                = (grid_route_fallback origin target 30, 0%nat)).
    { unfold compute_safest_path. rewrite block_edges_pair. reflexivity. }
    unfold compute_fastest_path. rewrite S. cbn [compute_shortest_path].
    repeat destruct (String.eqb mode _); cbn [fst snd]; rewrite Hf; reflexivity. }
  unfold route_block.
  destruct G; [reflexivity | | |]; destruct hz; try congruence; apply P.
Qed.

Lemma remove_edge_list_sublist (d : bool)
    (l l' : list (Node * Node * EdgeData T)) u v :
  remove_edge_list d l u v = Some l' -> sublist l' l.
Proof.
  revert l'. induction l as [|e l IH]; intros l' E; [discriminate |].
  cbn [remove_edge_list] in E.
  destruct (remove_edge_list d l u v) as [r|].
  - injection E as <-. apply sublist_skip. by apply IH.
  - destruct (edge_matches d e u v); [| discriminate].
    injection E as <-. by apply sublist_cons.
Qed.

Lemma block_edge_sublist (L : Libs T) (g : NxGraph T) geoms st e :
  sublist (edges (block_edge L g geoms st e).1) (edges st.1).
Proof.
  unfold block_edge.
  destruct (edge_midpoint L g e) as [[m|]|]; try reflexivity.
  destruct (some_contains L geoms m); try reflexivity.
  unfold remove_edge.
  destruct (remove_edge_list _ _ _ _) as [l|] eqn:E; try reflexivity.
  cbn. by eapply remove_edge_list_sublist.
Qed.

Lemma block_fold_sublist (L : Libs T) (g : NxGraph T) geoms es st :
  sublist (edges (foldl (block_edge L g geoms) st es).1) (edges st.1).
Proof.
  revert st. induction es as [|e es IH]; intros st; [reflexivity |].
  cbn [foldl]. etrans; [apply IH | apply block_edge_sublist].
Qed.

Lemma block_edges_sublist (L : Libs T) (G : Graph T) hz :
  sublist (edge_list (block_edges_by_hazards L G hz).1) (edge_list G).
Proof.
  unfold block_edges_by_hazards.
  destruct G as [|g| |]; try (destruct hz; try reflexivity;
    destruct (_iter_hazard_geoms L _); reflexivity).
  destruct hz; try reflexivity;
    (destruct (_iter_hazard_geoms L _) as [|p geoms]; [reflexivity |];
     destruct (nx L); [| reflexivity]; cbn [fst edge_list];
     apply fmap_sublist, (block_fold_sublist L g (p :: geoms) (edges g) (g, 0%Z))).
Qed.
End RoutingFacts.

(** ** The graph provider *)

Section GridFacts.
Context {T : Type} `{PyFloat T}.

Lemma coord_lookup (a b c : pyval T) :
  ({[ "y" := a; "x" := b; "coord" := c ]} : gmap string (pyval T)) !! "coord"
  = Some c.
Proof.
  rewrite lookup_insert_ne by done. rewrite lookup_insert_ne by done.
  apply lookup_singleton_eq.
Qed.

(** The synthesized graph has the nodes of the lattice, with the attributes
    [grid_node_attrs] gives them, or is the empty dict fallback. *)
Lemma build_grid_graph_positions (L : Libs T) (size : nat)
    (center : option (T * T)) n p :
  (n, p) ∈ node_positions (build_grid_graph L size center) ->
  exists i j, n = NTuple i j /\
    ((nx L = false /\ p = Some (of_int i, of_int j)) \/
     (nx L = true /\
      p = match grid_node_attrs size center i j !! "coord" with
          | Some (VPair a b) => Some (a, b)
          | _ => None
          end)).
Proof.
  unfold build_grid_graph. destruct (nx L); cbn [negb].
  - destruct (mapM _ _) as [es|]; cbn.
    + unfold grid_nodes. rewrite <- list_fmap_compose.
      intros ([i j] & E & _)%list_elem_of_fmap. cbn in E.
      injection E as -> ->. exists i, j. split; [reflexivity |].
      right. split; reflexivity.
    + intros []%elem_of_nil.
  - cbn. rewrite <- list_fmap_compose.
    intros ([i j] & E & _)%list_elem_of_fmap. cbn in E.
    injection E as -> ->. exists i, j. split; [reflexivity |].
    left. split; reflexivity.
Qed.
End GridFacts.

Lemma default_center_value :
  default_center (T:=Q) = (9.931233, 76.267304).
Proof. reflexivity. Qed.

Lemma grid_positions_no_center (L : Libs Q) n p :
  (n, p) ∈ node_positions (build_grid_graph L 10 None) ->
  exists i j, n = NTuple i j /\ p = Some (inject_Z i, inject_Z j).
Proof.
  intros (i & j & -> & [[_ ->] | [_ ->]])%build_grid_graph_positions;
    exists i, j; (split; [reflexivity |]); [reflexivity |].
  unfold grid_node_attrs. rewrite coord_lookup. reflexivity.
Qed.

Lemma grid_positions_center (L : Libs Q) (c : Q * Q) n p :
  nx L = true ->
  (n, p) ∈ node_positions (build_grid_graph L 10 (Some c)) ->
  exists i j q, n = NTuple i j /\ p = Some q /\
                same_position q (offset_position c 10 i j).
Proof.
  intros Hnx (i & j & -> & [[E _] | [_ ->]])%build_grid_graph_positions;
    [congruence |].
  destruct c as [latc lonc]. unfold grid_node_attrs. rewrite coord_lookup.
  eexists i, j, _. split; [reflexivity |]. split; [reflexivity |].
  split; cbn; reflexivity.
Qed.

(** Offline and without a center, the node (0, 0) of the lattice carries the
    position (0, 0), which is not the offset from the reference point. *)
Lemma C9_offline_grid_not_offset :
  (NTuple 0 0, Some (0, 0))
    ∈ node_positions (load_graph demo_libs false None 1500) /\
  ~ same_position (0, 0) (offset_position (9.931233, 76.267304) 10 0 0).
Proof.
  split.
  - apply list_elem_of_lookup. exists 0%nat. vm_compute. reflexivity.
  - intros [E _]. vm_compute in E. discriminate E.
Qed.

(** C9, as amended.  Without a center point [load_graph] still returns a
    graph.  Online with osmnx present it fetches around the fixed reference
    point (9.931233, 76.267304), and synthesizes the lattice when the fetch
    raises; otherwise it synthesizes the lattice.  The synthesized lattice
    of [build_grid_graph(10, None)] gives its node (i, j) the position
    (i, j), the raw indices; the offsets of 0.005 degrees around a point are
    used only for a center that was supplied. *)
Theorem C9_load_graph_no_center :
  forall (L : Libs Q) (online : bool) (dist : Z),
    (ox L && online = true ->
     load_graph L online None dist
     = match ox_graph_from_point L (9.931233, 76.267304) dist with
       | Ok G => GNx G
       | Raise _ => build_grid_graph L 10 None
       end) /\
    (ox L && online = false ->
     load_graph L online None dist = build_grid_graph L 10 None) /\
    (forall n p,
        (n, p) ∈ node_positions (build_grid_graph L 10 None) ->
        exists i j, n = NTuple i j /\ p = Some (inject_Z i, inject_Z j)) /\
    (forall c n p,
        nx L = true ->
        (n, p) ∈ node_positions (build_grid_graph L 10 (Some c)) ->
        exists i j q, n = NTuple i j /\ p = Some q /\
                      same_position q (offset_position c 10 i j)).
Proof.
  intros L online dist. repeat split.
  - intros E. unfold load_graph. rewrite E. reflexivity.
  - intros E. unfold load_graph. rewrite E. reflexivity.
  - apply grid_positions_no_center.
  - intros c n p. apply grid_positions_center.
Qed.

Lemma C9_load_graph_no_center_witness :
  load_graph demo_libs false None 1500 = build_grid_graph demo_libs 10 None /\
  exists i j, NTuple 9 9 = NTuple i j /\
              Some (9, 9) = Some (inject_Z i, inject_Z j).
Proof.
  destruct (C9_load_graph_no_center demo_libs false 1500) as (_ & Ho & Hn & _).
  split; [apply Ho; reflexivity |].
  apply (Hn (NTuple 9 9) (Some (9, 9))).
  apply list_elem_of_lookup. exists 99%nat. vm_compute. reflexivity.
Defined.

(** ** The straight-line fallback *)

(** C4. With no graph, [compute_shortest_path] from (10.0, 76.0) to
    (10.01, 76.01) returns the 31 points origin + (i/30) * (target - origin),
    i = 0..30; the first is the origin and the last is the target; the
    fastest and the safest mode return the same route.  In binary64 the
    route has 31 points, from the origin to the target exactly. *)
Theorem C4_null_graph_interpolation :
  (forall (L : Libs Q) (hazards : Hazards),
      let origin := (10, 76) in
      let target := (10.01, 76.01) in
      let route := (compute_shortest_path L GNone origin target "length").1 in
      Forall2 (fun p i => same_position p (interpolation_point origin target i))
              route (range 31) /\
      length route = 31%nat /\
      (exists p, head route = Some p /\ same_position p origin) /\
      (exists p, last route = Some p /\ same_position p target) /\
      (compute_fastest_path L GNone origin target).1 = route /\
      (compute_safest_path L GNone origin target hazards).1 = route) /\
  (forall (L : Libs float),
      let route :=
        (compute_shortest_path L GNone (10, 76)%float (10.01, 76.01)%float
           "length").1 in
      length route = 31%nat /\
      head route = Some (10, 76)%float /\
      last route = Some (10.01, 76.01)%float).
Proof.
  split.
  - intros L hazards origin target route.
    assert (R : route = grid_route_fallback origin target 30) by reflexivity.
    set (line := grid_route_fallback origin target 30) in R.
    vm_compute in line. subst line. rewrite R. clear R route.
    split.
    { set (idx := range 31). vm_compute in idx. subst idx.
      repeat (constructor; [split; vm_compute; reflexivity |]).
      constructor. }
    split; [reflexivity |].
    split; [eexists; split; [reflexivity | split; vm_compute; reflexivity] |].
    split; [eexists; split; [reflexivity | split; vm_compute; reflexivity] |].
    split; reflexivity.
  - intros L route.
    assert (R : route = grid_route_fallback (10, 76)%float (10.01, 76.01)%float 30)
      by reflexivity.
    rewrite R. repeat split; vm_compute; reflexivity.
Qed.

(** ** Path planning *)

(** On a graph of one node the nearest node of the origin and of the target
    coincide, and the route is that one point. *)
Lemma C1_one_node_route :
  let route :=
    (compute_shortest_path demo_libs (GNx one_node_graph) (10, 76)
       (10.01, 76.01) "length").1 in
  route = [(10, 76)] /\ ~ (2 <= length route)%nat.
Proof.
  vm_compute. split; [reflexivity | lia].
Qed.

(** C1, as amended.  Each of [compute_shortest_path],
    [compute_fastest_path] and [compute_safest_path] returns a route that is
    not empty, of exactly 31 points when the graph is null or the dict
    fallback; and the route the routing block of the application ends with
    has at least 2 points, for it replaces a shorter one by the
    interpolation. *)
Theorem C1_route_lengths :
  forall (T : Type) (F : PyFloat T) (L : Libs T) (G : Graph T)
         (origin target : T * T) (hazards : Hazards) (mode : string)
         (dnodes : list (Node * (Z * Z))) (dedges : list (Node * Node)),
    (1 <= length (compute_shortest_path L G origin target "length").1)%nat /\
    (1 <= length (compute_fastest_path L G origin target).1)%nat /\
    (1 <= length (compute_safest_path L G origin target hazards).1)%nat /\
    length (compute_shortest_path L GNone origin target "length").1 = 31%nat /\
    length (compute_shortest_path L (GDict dnodes dedges) origin target
              "length").1 = 31%nat /\
    length (compute_fastest_path L GNone origin target).1 = 31%nat /\
    length (compute_fastest_path L (GDict dnodes dedges) origin target).1
    = 31%nat /\
    length (compute_safest_path L GNone origin target hazards).1 = 31%nat /\
    length (compute_safest_path L (GDict dnodes dedges) origin target
              hazards).1 = 31%nat /\
    (2 <= length (route_block L G hazards mode origin target).1)%nat.
Proof.
  intros. repeat split.
  - apply compute_shortest_path_nonempty.
  - apply compute_shortest_path_nonempty.
  - apply compute_safest_path_nonempty.
  - apply grid_route_fallback_length.
  - apply grid_route_fallback_length.
  - apply grid_route_fallback_length.
  - apply grid_route_fallback_length.
  - apply grid_route_fallback_length.
  - unfold compute_safest_path, block_edges_by_hazards.
    destruct hazards; cbn [fst];
      try destruct (_iter_hazard_geoms L _); cbn [fst];
      apply grid_route_fallback_length.
  - apply route_block_length.
Qed.

(** ** Hazard pruning *)

(** C3. The edges of the graph [block_edges_by_hazards] returns are a
    sublist of the edges of the graph it was given: they are no more, and
    each of them is an edge of the input. *)
Theorem C3_block_edges_subset :
  forall (T : Type) (F : PyFloat T) (L : Libs T) (G : Graph T)
         (hazards : Hazards),
    let G' := (block_edges_by_hazards L G hazards).1 in
    sublist (edge_list G') (edge_list G) /\
    (length (edge_list G') <= length (edge_list G))%nat /\
    edge_list G' ⊆ edge_list G.
Proof.
  intros T F L G hazards G'.
  pose proof (block_edges_sublist L G hazards) as S.
  split; [exact S |]. split; [by apply sublist_length | by apply sublist_subseteq].
Qed.

(** On the lattice of side 3, the hazard around the middle node removes the
    four edges that meet there. *)
Example block_edges_small_grid :
  let r := block_edges_by_hazards demo_libs small_grid middle_hazard in
  length (edge_list small_grid) = 12%nat /\
  length (edge_list r.1) = 8%nat /\ r.2 = 4%Z.
Proof. vm_compute. repeat split; reflexivity. Qed.

(** ** The routing block *)

(** C10. With a hazard set that is not [None], the routing block binds
    [G_blocked] to the pair [(graph, blocked)], on which each of the three
    entry points returns the 31-point interpolation without a call of
    [nx.shortest_path]; so the block returns that interpolation, with no
    search run, for every graph and every mode. *)
Theorem C10_hazards_force_fallback :
  forall (T : Type) (F : PyFloat T) (L : Libs T) (G : Graph T)
         (hazards : Hazards) (mode : string) (origin target : T * T),
    hazards <> HNone ->
    let pruned := block_edges_by_hazards L G hazards in
    let G_blocked := GPair pruned.1 pruned.2 in
    compute_shortest_path L G_blocked origin target "length"
    = (grid_route_fallback origin target 30, 0%nat) /\
    compute_fastest_path L G_blocked origin target
    = (grid_route_fallback origin target 30, 0%nat) /\
    compute_safest_path L G_blocked origin target hazards
    = (grid_route_fallback origin target 30, 0%nat) /\
    route_block L G hazards mode origin target
    = (grid_route_fallback origin target 30, 0%nat) /\
    length (route_block L G hazards mode origin target).1 = 31%nat.
Proof.
  intros T F L G hazards mode origin target N pruned G_blocked.
  split; [reflexivity |]. split; [reflexivity |].
  split; [unfold compute_safest_path, G_blocked; rewrite block_edges_pair; reflexivity |].
  rewrite (route_block_hazards L G hazards mode origin target N).
  split; [reflexivity | apply grid_route_fallback_length].
Qed.

Lemma C10_hazards_force_fallback_witness :
  route_block demo_libs small_grid middle_hazard "Safest" (0, 0) (2, 2)
  = (grid_route_fallback (0, 0) (2, 2) 30, 0%nat).
Proof.
  apply (C10_hazards_force_fallback Q _ demo_libs small_grid middle_hazard
           "Safest" (0, 0) (2, 2)).
  discriminate.
Defined.

(** Without hazards the same block does search the graph. *)
Example route_block_without_hazards :
  route_block demo_libs small_grid HNone "Shortest" (0, 0) (2, 2)
  = ([(0, 0); (1, 0); (2, 0); (2, 1); (2, 2)], 1%nat).
Proof. vm_compute. reflexivity. Qed.

(** * Further properties *)

(** ** Fusion *)

Lemma i18n_get_table (m : gmap string string) (key dflt : string) :
  i18n_get (Some m) key dflt = default dflt (m !! key).
Proof.
  unfold i18n_get. case_bool_decide as E; [| reflexivity].
  subst m. rewrite lookup_empty. reflexivity.
Qed.

(** X1. With an i18n table the tier [fuse] returns is the entry of the table
    under the key of the tier, and the English label when the table has no
    such entry; the table never changes how many recommendations there are,
    and an empty table is no table. *)
Theorem fuse_tier_through_table :
  forall (T : Type) (F : PyFloat T) (d c : T) (m : gmap string string),
    let english := (fuse d c None).1 in
    (fuse d c (Some m)).1 = default english (m !! tier_key english) /\
    length (fuse d c (Some m)).2 = length (fuse d c None).2 /\
    fuse d c (Some ∅) = fuse d c None.
Proof.
  intros T F d c m english. subst english. unfold fuse.
  rewrite !i18n_get_table.
  repeat match goal with |- context [if ?b then _ else _] => destruct b end;
    cbn; rewrite ?lookup_empty; repeat split; reflexivity.
Qed.

Lemma tier_rank_of_combined (m : Q) :
  tier_rank (tier_of_combined m)
  = Some (if (m <? dec 2 1)%py then 0 else if (m <? dec 5 1)%py then 1
          else if (m <? dec 8 1)%py then 2 else 3)%nat.
Proof.
  unfold tier_of_combined.
  repeat match goal with |- context [if ?b then _ else _] => destruct b end;
    reflexivity.
Qed.

(** X2. The fused tier is the worse of the tier the disaster score gives
    alone and the tier the crowd score gives alone. *)
Theorem fuse_worse_of_two (d c : Q) :
  exists rd rc : nat,
    tier_rank (fuse d 0 None).1 = Some rd /\
    tier_rank (fuse 0 c None).1 = Some rc /\
    tier_rank (fuse d c None).1 = Some (Nat.max rd rc).
Proof.
  rewrite !fuse_tier, !tier_rank_of_combined.
  eexists _, _. split; [reflexivity |]. split; [reflexivity |].
  f_equal.
  pose proof (combined_score_Qmax d c) as Hdc.
  pose proof (combined_score_Qmax d 0) as Hd.
  pose proof (combined_score_Qmax 0 c) as Hc.
  set (x := combined_score d c) in *. set (y := combined_score d 0) in *.
  set (z := combined_score 0 c) in *.
  assert (Hy : y == Qmax d 0) by (rewrite Hd; apply Q.max_compat; [reflexivity | ring]).
  clear Hd.
  destruct (Q.max_spec d (c * 0.9)) as [[? E1]|[? E1]];
  destruct (Q.max_spec d 0) as [[? E2]|[? E2]];
  destruct (Q.max_spec 0 (c * 0.9)) as [[? E3]|[? E3]];
  rewrite E1 in Hdc; rewrite E2 in Hy; rewrite E3 in Hc;
  q_cases; q_consts; try reflexivity; try lra.
Qed.

(** ** Disaster scoring, any thresholds *)

(** Running a scorer: one call of the chain at a time. *)
Ltac run_result :=
  repeat first
    [ rewrite bind_Ok; cbv beta iota
    | match goal with
      | |- context [mbind _ (getitem ?t ?k)] =>
          let E := fresh "E" in destruct (getitem t k) eqn:E
      | |- context [mbind _ (if ?b then _ else _)] =>
          let E := fresh "E" in destruct b eqn:E
      | |- context [@mbind result _ ?A ?B ?k (Raise ?e)] =>
          change (@mbind result _ A B k (Raise e)) with (@Raise B e)
      end ].

(** X3. Whatever the thresholds, a score [score_disaster] returns lies in
    [0, 1] and comes with exactly two drivers, one for the rainfall and one
    for the wind; with the flood override it is at least 0.6. *)
Theorem score_disaster_range :
  forall (config : option (gmap string (gmap string Q)))
         (weather : gmap string Q) (flood : bool)
         (i18n : option (gmap string string))
         (score : Q) (drivers : list (driver Q)),
    RiskDisaster.score_disaster config weather flood i18n = Ok (score, drivers) ->
    0 <= score <= 1 /\ length drivers = 2%nat /\
    (flood = true -> 0.6 <= score).
Proof.
  intros config weather flood i18n score drivers.
  unfold RiskDisaster.score_disaster.
  run_result; intros R; try discriminate R;
    injection R as <- <-;
    (split; [q_eval |]); (split; [reflexivity |]); intros ->;
    try discriminate; try q_eval.
  all: rewrite orb_true_r in *; discriminate.
Qed.

(** X4. A thresholds file without the rainfall table, without its ["high"]
    entry, or without the wind table makes [score_disaster] raise
    [KeyError], the flood override notwithstanding. *)
Theorem score_disaster_missing_key :
  forall (T : Type) (F : PyFloat T) (t : gmap string (gmap string T))
         (weather : gmap string T) (flood : bool)
         (i18n : option (gmap string string)),
    (t !! "rainfall_mm" = None ->
     RiskDisaster.score_disaster (Some t) weather flood i18n = Raise "KeyError") /\
    (forall tr, t !! "rainfall_mm" = Some tr -> tr !! "high" = None ->
     RiskDisaster.score_disaster (Some t) weather flood i18n = Raise "KeyError") /\
    (forall tr hi, t !! "rainfall_mm" = Some tr -> tr !! "high" = Some hi ->
     flood = true -> t !! "wind_kph" = None ->
     RiskDisaster.score_disaster (Some t) weather flood i18n = Raise "KeyError").
Proof.
  intros T F t weather flood i18n.
  unfold RiskDisaster.score_disaster, getitem. cbn [RiskDisaster._load_thresholds].
  repeat split.
  - intros ->. reflexivity.
  - intros tr -> E. cbn. rewrite E. reflexivity.
  - intros tr hi -> E -> Ew. cbn. rewrite E. cbn. rewrite orb_true_r, Ew. reflexivity.
Qed.

Lemma score_disaster_default_value (weather : gmap string Q) (flood : bool)
    (i18n : option (gmap string string)) :
  exists (s : Q) (drivers : list (driver Q)),
    RiskDisaster.score_disaster None weather flood i18n = Ok (s, drivers) /\
    s == Qmin 1 (rain_points (default 0 (weather !! "rainfall_mm")) flood
                 + wind_points (default 0 (weather !! "wind_kph"))).
Proof.
  pose proof (score_disaster_default weather flood i18n) as R.
  destruct (RiskDisaster.score_disaster None weather flood i18n) as [[s d]|e];
    [| destruct R].
  exists s, d. split; [reflexivity | exact R].
Qed.

Lemma rain_points_mono (r1 r2 : Q) (f1 f2 : bool) :
  r1 <= r2 -> (f1 = true -> f2 = true) ->
  rain_points r1 f1 <= rain_points r2 f2.
Proof.
  intros L I. unfold rain_points.
  change (@of_int Q _ 50) with (50:Q). change (@of_int Q _ 25) with (25:Q).
  destruct f1, f2; try (specialize (I eq_refl); discriminate);
    rewrite ?orb_true_r, ?orb_false_r; q_cases; q_lits; try lra.
Qed.

Lemma wind_points_mono (w1 w2 : Q) :
  w1 <= w2 -> wind_points w1 <= wind_points w2.
Proof.
  intros L. unfold wind_points.
  change (@of_int Q _ 80) with (80:Q). change (@of_int Q _ 40) with (40:Q).
  q_cases; q_lits; lra.
Qed.

(** X5. Under the default thresholds the disaster score is monotone: more
    rain, more wind or the flood override never lower it. *)
Theorem score_disaster_monotone :
  forall (w1 w2 : gmap string Q) (f1 f2 : bool)
         (i18n : option (gmap string string)),
    default 0 (w1 !! "rainfall_mm") <= default 0 (w2 !! "rainfall_mm") ->
    default 0 (w1 !! "wind_kph") <= default 0 (w2 !! "wind_kph") ->
    (f1 = true -> f2 = true) ->
    exists s1 d1 s2 d2,
      RiskDisaster.score_disaster None w1 f1 i18n = Ok (s1, d1) /\
      RiskDisaster.score_disaster None w2 f2 i18n = Ok (s2, d2) /\
      s1 <= s2.
Proof.
  intros w1 w2 f1 f2 i18n Lr Lw If.
  destruct (score_disaster_default_value w1 f1 i18n) as (s1 & d1 & E1 & V1).
  destruct (score_disaster_default_value w2 f2 i18n) as (s2 & d2 & E2 & V2).
  exists s1, d1, s2, d2. split; [exact E1 |]. split; [exact E2 |].
  rewrite V1, V2.
  pose proof (rain_points_mono _ _ f1 f2 Lr If).
  pose proof (wind_points_mono _ _ Lw).
  apply Q.min_le_compat_l. lra.
Qed.

Lemma tier_critical_iff (m : Q) :
  tier_of_combined m = "Critical" <-> 0.8 <= m.
Proof.
  unfold tier_of_combined. q_cases; q_consts;
    split; intros; try discriminate; try reflexivity; lra.
Qed.

(** X6. Under the default thresholds and with no crowd signal, the fused
    tier is Critical exactly when the rainfall is severe (at least 50 mm, or
    the flood override) and the wind is high (at least 80 kph) together. *)
Theorem disaster_alone_critical :
  forall (weather : gmap string Q) (flood : bool)
         (i18n : option (gmap string string)),
    exists s d,
      RiskDisaster.score_disaster None weather flood i18n = Ok (s, d) /\
      ((fuse s 0 None).1 = "Critical" <->
       (50 <= default 0 (weather !! "rainfall_mm") \/ flood = true) /\
       80 <= default 0 (weather !! "wind_kph")).
Proof.
  intros weather flood i18n.
  destruct (score_disaster_default_value weather flood i18n) as (s & d & E & V).
  exists s, d. split; [exact E |].
  rewrite fuse_tier.
  rewrite (tier_of_combined_proper _ _ (combined_score_Qmax s 0)).
  rewrite tier_critical_iff.
  set (rain := default 0 (weather !! "rainfall_mm")) in *.
  set (wind := default 0 (weather !! "wind_kph")) in *.
  destruct (rain_points_spec rain flood) as (R1 & R2 & R3).
  destruct (wind_points_spec wind) as (W1 & W2 & W3).
  set (p := rain_points rain flood) in *. set (w := wind_points wind) in *.
  destruct (Q.min_spec 1 (p + w)) as [[? Em]|[? Em]]; rewrite Em in V; clear Em;
  destruct (Q.max_spec s (0 * 0.9)) as [[? Ex]|[? Ex]]; rewrite Ex; clear Ex;
  destruct flood;
  destruct (Qlt_le_dec rain 50); destruct (Qlt_le_dec rain 25);
  destruct (Qlt_le_dec wind 80); destruct (Qlt_le_dec wind 40);
  try lra;
  repeat match goal with
  | H : _ \/ _ -> _ |- _ => first [ specialize (H (or_intror eq_refl)) | specialize (H ltac:(left; lra)) | clear H ]
  | H : _ < _ -> _ |- _ => first [ specialize (H ltac:(lra)) | clear H ]
  | H : _ <= _ -> _ |- _ => first [ specialize (H ltac:(lra)) | clear H ]
  | H : _ <= _ < _ -> _ |- _ => first [ specialize (H ltac:(lra)) | clear H ]
  | H : false = false -> _ |- _ => specialize (H eq_refl)
  | H : true = false -> _ |- _ => clear H
  end;
  (split; [intros ?; split; [first [right; reflexivity | left; lra] | lra]
          | intros [[?|?] ?]; try discriminate; lra]).
Qed.

(** ** Crowd scoring *)

Lemma score_crowd_three_values
    (config : option (gmap string (gmap string Q)))
    (crowd_df : option DataFrame) (surge : bool) (area : Q)
    (i18n : option (gmap string string))
    (score : Q) (drivers : list (driver Q)) :
  RiskCrowd.score_crowd config crowd_df surge area i18n = Ok (score, drivers) ->
  (score == 0 \/ score == 0.35 \/ score == 0.7) /\
  (length drivers = 1%nat \/ length drivers = 3%nat).
Proof.
  unfold RiskCrowd.score_crowd.
  destruct crowd_df as [df|]; [| intros [= <- <-]; split; [left; reflexivity | left; reflexivity]].
  destruct (df_empty df); [intros [= <- <-]; split; [left; reflexivity | left; reflexivity] |].
  destruct (df_columns df !! "people") as [people|];
    [| intros [= <- <-]; split; [left; reflexivity | left; reflexivity]].
  run_result; intros R; try discriminate R; injection R as <- <-;
    (split; [| right; reflexivity]).
  all: first [ left; reflexivity | right; left; reflexivity | right; right; reflexivity ].
Qed.

(** X7. Whatever the thresholds, a score [score_crowd] returns is 0, 0.35 or
    0.7, with one driver (no data) or three; so the crowd signal alone
    never makes the fused tier Critical. *)
Theorem score_crowd_values :
  forall (config : option (gmap string (gmap string Q)))
         (crowd_df : option DataFrame) (surge : bool) (area : Q)
         (i18n : option (gmap string string))
         (score : Q) (drivers : list (driver Q)),
    RiskCrowd.score_crowd config crowd_df surge area i18n = Ok (score, drivers) ->
    (score == 0 \/ score == 0.35 \/ score == 0.7) /\
    (length drivers = 1%nat \/ length drivers = 3%nat) /\
    (forall d : Q, d < 0.8 -> (fuse d score None).1 <> "Critical").
Proof.
  intros config crowd_df surge area i18n score drivers R.
  destruct (score_crowd_three_values _ _ _ _ _ _ _ R) as [V Hd].
  split; [exact V |]. split; [exact Hd |].
  intros d Ld.
  rewrite fuse_tier, (tier_of_combined_proper _ _ (combined_score_Qmax d score)).
  rewrite tier_critical_iff.
  destruct (Q.max_spec d (score * 0.9)) as [[? ->]|[? ->]];
    destruct V as [V|[V|V]]; lra.
Qed.

(** X8. On data with a ['people'] column [score_crowd] raises
    [ZeroDivisionError] for an area of 0 and, without the surge trigger,
    [KeyError] for a thresholds file without the density table; with the
    surge trigger it reads no threshold and returns the high-density
    result. *)
Theorem score_crowd_errors :
  forall (T : Type) (F : PyFloat T)
         (config : option (gmap string (gmap string T)))
         (df : DataFrame) (people : list Z) (surge : bool) (area : T)
         (i18n : option (gmap string string)),
    df_empty df = false ->
    df_columns df !! "people" = Some people ->
    ((area =? of_int 0)%py = true ->
     RiskCrowd.score_crowd config (Some df) surge area i18n
     = Raise "ZeroDivisionError") /\
    (forall t, (area =? of_int 0)%py = false -> surge = false ->
               config = Some t -> t !! "crowd_density_per_m2" = None ->
     RiskCrowd.score_crowd config (Some df) surge area i18n
     = Raise "KeyError") /\
    ((area =? of_int 0)%py = false -> surge = true ->
     RiskCrowd.score_crowd config (Some df) surge area i18n
     = Ok (pymin (of_int 1) (dec 7 1),
           [[Lit (i18n_get i18n "density" "Density"); Lit ": ";
             Fmt (of_int (column_sum people) / area)%py ".2f";
             Lit " ppl/m2"];
            [Lit "Total people: "; FmtInt (column_sum people)];
            [Lit (i18n_get i18n "high" "High density")]])).
Proof.
  intros T F config df people surge area i18n Ee Ep.
  unfold RiskCrowd.score_crowd. rewrite Ee, Ep.
  repeat split.
  - intros ->. reflexivity.
  - intros t -> -> -> Ek. cbn. unfold getitem. rewrite Ek. reflexivity.
  - intros -> ->. reflexivity.
Qed.

Lemma levels_lookup_any {V} (lo me hi : V) :
  let t : gmap string V := {[ "low" := lo; "medium" := me; "high" := hi ]} in
  getitem t "high" = Ok hi /\ getitem t "medium" = Ok me.
Proof.
  unfold getitem. split.
  - rewrite lookup_insert_ne by done. rewrite lookup_insert_ne by done.
    rewrite lookup_singleton_eq. reflexivity.
  - rewrite lookup_insert_ne by done. rewrite lookup_insert_eq. reflexivity.
Qed.

Lemma default_crowd_thresholds (T : Type) (F : PyFloat T) :
  getitem (RiskCrowd._load_thresholds (T:=T) None) "crowd_density_per_m2"
  = Ok {[ "low" := dec 5 1; "medium" := of_int 2; "high" := of_int 4 ]}.
Proof.
  unfold getitem, RiskCrowd._load_thresholds.
  rewrite lookup_singleton_eq. reflexivity.
Qed.

(** X9. Under the default thresholds, on an int64 people column whose sum
    wraps around as pandas computes it, and for every numeric type:
    [score_crowd] returns three drivers and the score [min(1.0, 0.7)] for a
    surge or a density of at least 4 people per square metre,
    [min(1.0, 0.35)] for a density of at least 2 and not 4, and
    [min(1.0, 0.0)] otherwise, the comparisons being those of the numeric
    type.  In binary64 the three scores are 0.7, 0.35 and 0. *)
Theorem score_crowd_defaults :
  (forall (T : Type) (F : PyFloat T) (df : DataFrame) (people : list Z)
          (surge : bool) (area : T) (i18n : option (gmap string string)),
      df_empty df = false ->
      df_columns df !! "people" = Some people ->
      (area =? of_int 0)%py = false ->
      let density := (of_int (column_sum people) / area)%py in
      exists score drivers,
        RiskCrowd.score_crowd None (Some df) surge area i18n
        = Ok (score, drivers) /\
        length drivers = 3%nat /\
        (surge = true \/ (density >=? of_int 4)%py = true ->
         score = pymin (of_int 1) (dec 7 1)) /\
        (surge = false -> (density >=? of_int 4)%py = false ->
         (density >=? of_int 2)%py = true ->
         score = pymin (of_int 1) (dec 35 2)) /\
        (surge = false -> (density >=? of_int 4)%py = false ->
         (density >=? of_int 2)%py = false ->
         score = pymin (of_int 1) (of_int 0))) /\
  (pymin (T:=float) (of_int 1) (dec 7 1) = 0.7%float /\
   pymin (T:=float) (of_int 1) (dec 35 2) = 0.35%float /\
   pymin (T:=float) (of_int 1) (of_int 0) = 0%float).
Proof.
  split; [| repeat split; vm_compute; reflexivity].
  intros T F df people surge area i18n Ee Ep Ea density.
  unfold RiskCrowd.score_crowd. rewrite Ee, Ep, Ea, bind_Ok. cbv beta iota.
  fold density.
  pose proof (default_crowd_thresholds T F) as Gk.
  destruct (levels_lookup_any (V:=T) (dec 5 1) (of_int 2) (of_int 4))
    as [Gh Gm].
  destruct surge.
  - repeat (rewrite bind_Ok; cbv beta iota).
    eexists _, _. split; [reflexivity |]. split; [reflexivity |].
    repeat split; intros; try discriminate; reflexivity.
  - rewrite Gk, !bind_Ok, Gh, !bind_Ok.
    destruct (density >=? of_int 4)%py eqn:E4.
    + repeat (rewrite bind_Ok; cbv beta iota).
      eexists _, _. split; [reflexivity |]. split; [reflexivity |].
      repeat split; intros; try discriminate; reflexivity.
    + repeat (rewrite bind_Ok; cbv beta iota).
      rewrite ?Gk, ?bind_Ok, ?Gm, ?bind_Ok.
      destruct (density >=? of_int 2)%py eqn:E2;
        repeat (rewrite bind_Ok; cbv beta iota);
        (eexists _, _; split; [reflexivity |]; split; [reflexivity |]);
        repeat split; intros; try discriminate; try reflexivity;
        match goal with H : _ \/ _ |- _ => destruct H; discriminate end.
Qed.

(** ** Routing *)

Section MoreRoutingFacts.
Context {T : Type} `{PyFloat T}.

Lemma range_lookup (n i : nat) :
  (i < n)%nat -> range n !! i = Some (Z.of_nat i).
Proof.
  intros L. unfold range. rewrite list_lookup_fmap, lookup_seq_lt by done.
  reflexivity.
Qed.


Lemma remove_edge_list_length (d : bool)
    (l l' : list (Node * Node * EdgeData T)) u v :
  remove_edge_list d l u v = Some l' -> length l = S (length l').
Proof.
  revert l'. induction l as [|e l IH]; intros l' E; [discriminate |].
  cbn [remove_edge_list] in E.
  destruct (remove_edge_list d l u v) as [r|].
  - injection E as <-. cbn. f_equal. by apply IH.
  - destruct (edge_matches d e u v); [| discriminate].
    injection E as <-. reflexivity.
Qed.

Lemma remove_edge_list_found (d : bool)
    (l : list (Node * Node * EdgeData T)) e :
  e ∈ l -> is_Some (remove_edge_list d l e.1.1 e.1.2).
Proof.
  induction l as [|x l IH]; intros Hin; [by apply elem_of_nil in Hin |].
  cbn [remove_edge_list].
  destruct (remove_edge_list d l e.1.1 e.1.2) as [r|] eqn:E; [by eexists |].
  apply elem_of_cons in Hin as [->|Hin].
  - unfold edge_matches. rewrite bool_decide_eq_true_2 by (split; reflexivity).
    by eexists.
  - destruct (IH Hin) as [r Hr]. discriminate Hr.
Qed.

Lemma block_edge_count (L : Libs T) (g : NxGraph T) geoms st e :
  let st' := block_edge L g geoms st e in
  (Z.of_nat (length (edges st'.1)) + st'.2
   = Z.of_nat (length (edges st.1)) + st.2)%Z /\
  (st.2 <= st'.2)%Z /\ nodes st'.1 = nodes st.1.
Proof.
  unfold block_edge, edge_hit.
  destruct (edge_midpoint L g e) as [[m|]|]; cbn zeta; try (split; [|split]; (reflexivity || lia)).
  destruct (some_contains L geoms m); try (split; [|split]; (reflexivity || lia)).
  unfold remove_edge.
  destruct (remove_edge_list _ _ _ _) as [l|] eqn:E; try (split; [|split]; (reflexivity || lia)).
  apply remove_edge_list_length in E. cbn. rewrite E. split; [lia |]. split; [lia | reflexivity].
Qed.

Lemma block_fold_count (L : Libs T) (g : NxGraph T) geoms es st :
  let st' := foldl (block_edge L g geoms) st es in
  (Z.of_nat (length (edges st'.1)) + st'.2
   = Z.of_nat (length (edges st.1)) + st.2)%Z /\
  (st.2 <= st'.2)%Z /\ nodes st'.1 = nodes st.1.
Proof.
  revert st. induction es as [|e es IH]; intros st; cbn [foldl].
  - split; [reflexivity |]. split; [lia | reflexivity].
  - destruct (IH (block_edge L g geoms st e)) as (A & B & C).
    destruct (block_edge_count L g geoms st e) as (A' & B' & C').
    cbn zeta in *. split; [lia |]. split; [lia | congruence].
Qed.

(** X11. The count [block_edges_by_hazards] returns is the number of edges
    it removed, between 0 and the number of edges of the input; the nodes
    are kept as they are. *)
Theorem block_edges_count :
  forall (L : Libs T) (G : Graph T) (hazards : Hazards),
    let r := block_edges_by_hazards L G hazards in
    (Z.of_nat (length (edge_list G))
     = Z.of_nat (length (edge_list r.1)) + r.2)%Z /\
    (0 <= r.2 <= Z.of_nat (length (edge_list G)))%Z /\
    node_positions r.1 = node_positions G.
Proof.
  intros L G hazards r. subst r. unfold block_edges_by_hazards.
  assert (Z0 : forall G0 : Graph T,
    (Z.of_nat (length (edge_list G0)) = Z.of_nat (length (edge_list (G0, 0%Z).1)) + (G0, 0%Z).2)%Z /\
    (0 <= (G0, 0%Z).2 <= Z.of_nat (length (edge_list G0)))%Z /\
    node_positions (G0, 0%Z).1 = node_positions G0).
  { intros G0. cbn. split; [lia |]. split; [lia | reflexivity]. }
  destruct G as [|g| |]; try (destruct hazards; try apply Z0;
    destruct (_iter_hazard_geoms L _); apply Z0).
  destruct hazards; try apply Z0;
    (destruct (_iter_hazard_geoms L _) as [|p geoms]; [apply Z0 |];
     destruct (nx L); [| apply Z0];
     destruct (block_fold_count L g (p :: geoms) (edges g) (g, 0%Z)) as (A & B & C);
     cbn [fst snd edge_list node_positions] in *;
     rewrite !length_fmap, C; split; [lia |]; split; [lia | reflexivity]).
Qed.

Lemma block_edges_no_geometry (L : Libs T) (G : Graph T) (hazards : Hazards) :
  _iter_hazard_geoms L hazards = [] ->
  block_edges_by_hazards L G hazards = (G, 0%Z).
Proof.
  intros E. unfold block_edges_by_hazards. rewrite E.
  destruct G, hazards; reflexivity.
Qed.

(** X12. [block_edges_by_hazards] returns the graph it was given, and 0,
    when the hazards yield no geometry, when networkx is absent, and when
    the graph is not a networkx graph; and a hazard list yields no geometry
    when shapely is absent. *)
Theorem block_edges_unchanged :
  forall (L : Libs T) (G : Graph T) (hazards : Hazards),
    (_iter_hazard_geoms L hazards = [] ->
     block_edges_by_hazards L G hazards = (G, 0%Z)) /\
    (nx L = false -> block_edges_by_hazards L G hazards = (G, 0%Z)) /\
    ((forall g, G <> GNx g) -> block_edges_by_hazards L G hazards = (G, 0%Z)) /\
    (forall items, shapely L = false -> _iter_hazard_geoms L (HList items) = []).
Proof.
  intros L G hazards. split; [apply block_edges_no_geometry |].
  unfold block_edges_by_hazards. repeat split.
  - intros E. rewrite E.
    destruct G, hazards; try reflexivity; destruct (_iter_hazard_geoms L _); reflexivity.
  - intros N. destruct G as [|g| |]; try (exfalso; by eapply N);
      destruct hazards; try reflexivity; destruct (_iter_hazard_geoms L _); reflexivity.
  - intros items E. cbn. rewrite E.
    induction items as [|[] items IH]; cbn; try reflexivity; exact IH.
Qed.

Lemma block_fold_no_hit (L : Libs T) (g : NxGraph T) geoms es st :
  (forall e, e ∈ es -> edge_hit L g geoms e = false) ->
  foldl (block_edge L g geoms) st es = st.
Proof.
  revert st. induction es as [|e es IH]; intros st Hn; [reflexivity |].
  cbn [foldl].
  assert (E : block_edge L g geoms st e = st).
  { specialize (Hn e ltac:(left)). unfold edge_hit in Hn. unfold block_edge.
    destruct (edge_midpoint L g e) as [[m|]|]; try reflexivity.
    rewrite Hn. reflexivity. }
  rewrite E. apply IH. intros e' Hin. apply Hn. by right.
Qed.

(** X13. On a networkx graph nothing is removed when no edge has its
    midpoint inside a hazard, and at least one edge is removed as soon as
    one has. *)
Theorem block_edges_zero_iff :
  forall (L : Libs T) (g : NxGraph T) (hazards : Hazards),
    nx L = true ->
    let geoms := _iter_hazard_geoms L hazards in
    let r := block_edges_by_hazards L (GNx g) hazards in
    ((forall e, e ∈ edges g -> edge_hit L g geoms e = false) ->
     r = (GNx g, 0%Z)) /\
    (forall e, e ∈ edges g -> edge_hit L g geoms e = true ->
     (1 <= r.2)%Z /\
     (length (edge_list r.1) < length (edge_list (GNx g)))%nat).
Proof.
  intros L g hazards Hnx geoms r.
  assert (R : geoms <> [] -> r = ((GNx (foldl (block_edge L g geoms) (g, 0%Z) (edges g)).1),
                     (foldl (block_edge L g geoms) (g, 0%Z) (edges g)).2)).
  { intros N. subst r. unfold block_edges_by_hazards. fold geoms.
    destruct hazards; try (exfalso; by apply N); destruct geoms; try (exfalso; by apply N);
      rewrite Hnx; reflexivity. }
  split.
  - intros Hn. destruct (decide (geoms = [])) as [E|N].
    + subst r. apply block_edges_no_geometry. exact E.
    + rewrite (R N), block_fold_no_hit by exact Hn. by destruct g.
  - intros e Hin Hit.
    assert (N : geoms <> []).
    { intros E. unfold edge_hit in Hit. rewrite E in Hit.
      destruct (edge_midpoint L g e) as [[m|]|]; discriminate. }
    assert (B : (1 <= (foldl (block_edge L g geoms) (g, 0%Z) (edges g)).2)%Z).
    { (* first hit *)
      assert (G : forall pre post, edges g = pre ++ post ->
                (forall x, x ∈ pre -> edge_hit L g geoms x = false) ->
                (exists x, x ∈ post /\ edge_hit L g geoms x = true) ->
                (1 <= (foldl (block_edge L g geoms) (g, 0%Z) (edges g)).2)%Z).
      { intros pre post. revert pre. induction post as [|x post IH]; intros pre Ee Hpre [y [Hy Hhit]].
        - by apply elem_of_nil in Hy.
        - destruct (edge_hit L g geoms x) eqn:Hx.
          + rewrite Ee, foldl_app, (block_fold_no_hit L g geoms pre) by exact Hpre.
            cbn [foldl].
            assert (S1 : (block_edge L g geoms (g, 0%Z) x).2 = 1%Z).
            { unfold block_edge. unfold edge_hit in Hx.
              destruct (edge_midpoint L g x) as [[m|]|]; try discriminate.
              rewrite Hx. unfold remove_edge. cbn [fst].
              destruct (remove_edge_list_found (directed g) (edges g) x) as [l El].
              { rewrite Ee. apply elem_of_app. right. left. }
              rewrite El. reflexivity. }
            pose proof (block_fold_count L g geoms post (block_edge L g geoms (g, 0%Z) x)) as (_ & Mono & _).
            cbn zeta in Mono. lia.
          + apply (IH (pre ++ [x])).
            * rewrite <- app_assoc. exact Ee.
            * intros z [Hz|Hz%list_elem_of_singleton]%elem_of_app; [by apply Hpre | by subst].
            * exists y. split; [| exact Hhit].
              apply elem_of_cons in Hy as [->|Hy]; [congruence | exact Hy]. }
      apply (G [] (edges g)); [reflexivity | intros x Hx; by apply elem_of_nil in Hx |].
      exists e. split; assumption. }
    rewrite (R N). cbn [fst snd]. split; [exact B |].
    pose proof (block_fold_count L g geoms (edges g) (g, 0%Z)) as (A & _ & _).
    cbn zeta in A. cbn [fst snd edge_list] in *. rewrite !length_fmap. lia.
Qed.
End MoreRoutingFacts.

Section NearestFacts.
Context {T : Type} `{PyFloat T}.

Lemma nearest_step_node (L : Libs T) g coord st n :
  nearest_step L g coord st n
  = match node_distance L g coord n with
    | Raise _ => st
    | Ok d =>
        match st.2 with
        | None => if flt_inf d then (Some n, Some d) else st
        | Some best_d => if (d <? best_d)%py then (Some n, Some d) else st
        end
    end.
Proof. reflexivity. Qed.

Lemma nearest_fold_member (L : Libs T) g coord ns st :
  match (foldl (nearest_step L g coord) st ns).1 with
  | Some b => b ∈ ns \/ st.1 = Some b
  | None => st.1 = None
  end.
Proof.
  revert st. induction ns as [|n ns IH]; intros st; cbn [foldl].
  - destruct st.1; [right |]; reflexivity.
  - specialize (IH (nearest_step L g coord st n)).
    destruct (foldl _ _ ns).1 as [b|].
    + destruct IH as [Hin|E]; [left; by right |].
      rewrite nearest_step_node in E.
      destruct (node_distance L g coord n); [| by right].
      destruct st.2; [destruct (_ <? _)%py | destruct (flt_inf _)]; cbn in E;
        first [ injection E as ->; left; by left | by right ].
    + rewrite nearest_step_node in IH.
      destruct (node_distance L g coord n); [| exact IH].
      destruct st.2; [destruct (_ <? _)%py | destruct (flt_inf _)]; cbn in IH;
        first [discriminate | exact IH].
Qed.

(** X14. [_nearest_node_in_graph] returns a node of the networkx graph it
    was given, or else the queried coordinate unchanged. *)
Theorem nearest_node_in_graph_member :
  forall (L : Libs T) (G : Graph T) (coord : T * T),
    match _nearest_node_in_graph L G coord with
    | RefNode n => exists g, G = GNx g /\ nx L = true /\ n ∈ (nodes g).*1
    | RefCoord c => c = coord
    end.
Proof.
  intros L G coord. unfold _nearest_node_in_graph.
  destruct G as [|g| |]; try reflexivity.
  destruct (nx L) eqn:Hnx; [| reflexivity].
  pose proof (nearest_fold_member L g coord (nodes g).*1 (None, None)) as M.
  destruct (foldl _ _ _).1 as [b|]; [| reflexivity].
  exists g. split; [reflexivity |]. split; [reflexivity |].
  destruct M as [M|M]; [exact M | discriminate].
Qed.
End NearestFacts.

(** Invariant of the scan over exact rationals. *)
Lemma nearest_fold_min (L : Libs Q) g coord ns :
  let st := foldl (nearest_step L g coord) (None, None) ns in
  match st.1, st.2 with
  | Some b, Some db =>
      node_distance L g coord b = Ok db /\
      forall n d, n ∈ ns -> node_distance L g coord n = Ok d -> db <= d
  | None, None => forall n, n ∈ ns -> exists e, node_distance L g coord n = Raise e
  | _, _ => False
  end.
Proof.
  induction ns as [|n ns IH] using rev_ind; cbn zeta.
  - cbn. intros n Hn. by apply elem_of_nil in Hn.
  - rewrite foldl_app. cbn [foldl]. cbn zeta in IH.
    set (st := foldl (nearest_step L g coord) (None, None) ns) in *.
    rewrite nearest_step_node.
    destruct (node_distance L g coord n) as [d|e] eqn:En.
    + change (flt_inf d) with true.
      destruct st as [[b|] [db|]]; cbn [fst snd] in *; try contradiction.
      * destruct IH as [Eb Hmin].
        destruct (d <? db)%py eqn:Ed;
          [apply Q_fltb_lt in Ed | apply Q_fltb_ge in Ed]; cbn [fst snd].
        -- split; [exact En |].
           intros m dm [Hm|Hm%list_elem_of_singleton]%elem_of_app Em.
           ++ specialize (Hmin m dm Hm Em). lra.
           ++ subst m. rewrite En in Em. injection Em as ->. lra.
        -- split; [exact Eb |].
           intros m dm [Hm|Hm%list_elem_of_singleton]%elem_of_app Em.
           ++ exact (Hmin m dm Hm Em).
           ++ subst m. rewrite En in Em. injection Em as ->. exact Ed.
      * split; [exact En |].
        intros m dm [Hm|Hm%list_elem_of_singleton]%elem_of_app Em.
        -- destruct (IH m Hm) as [e Ee]. rewrite Ee in Em. discriminate.
        -- subst m. rewrite En in Em. injection Em as ->. lra.
    + destruct st as [[b|] [db|]]; cbn [fst snd] in *; try contradiction.
      * destruct IH as [Eb Hmin]. split; [exact Eb |].
        intros m dm [Hm|Hm%list_elem_of_singleton]%elem_of_app Em.
        -- exact (Hmin m dm Hm Em).
        -- subst m. rewrite En in Em. discriminate.
      * intros m [Hm|Hm%list_elem_of_singleton]%elem_of_app.
        -- exact (IH m Hm).
        -- subst m. by exists e.
Qed.

(** X15. The node [_nearest_node_in_graph] returns is nearest: no node
    whose distance can be computed is closer; and the coordinate comes back
    only when no distance can be computed. *)
Theorem nearest_node_in_graph_minimal :
  forall (L : Libs Q) (g : NxGraph Q) (coord : Q * Q),
    nx L = true ->
    match _nearest_node_in_graph L (GNx g) coord with
    | RefNode best =>
        exists best_d,
          node_distance L g coord best = Ok best_d /\
          forall n d, n ∈ (nodes g).*1 ->
                      node_distance L g coord n = Ok d -> best_d <= d
    | RefCoord _ =>
        forall n, n ∈ (nodes g).*1 ->
                  exists e, node_distance L g coord n = Raise e
    end.
Proof.
  intros L g coord Hnx. unfold _nearest_node_in_graph. rewrite Hnx.
  pose proof (nearest_fold_min L g coord (nodes g).*1) as M. cbn zeta in M.
  destruct (foldl _ _ _) as [[b|] [db|]]; cbn [fst snd] in *; try contradiction.
  - exists db. exact M.
  - exact M.
Qed.

Section PlannerFacts.
Context {T : Type} `{PyFloat T}.

Lemma block_edges_not_none (L : Libs T) (G : Graph T) hz :
  G <> GNone -> (block_edges_by_hazards L G hz).1 <> GNone.
Proof.
  intros N. unfold block_edges_by_hazards.
  destruct G as [|g| |]; [congruence | | |];
    destruct hz; try discriminate;
    destruct (_iter_hazard_geoms L _); try discriminate;
    destruct (nx L); discriminate.
Qed.

(** X16. The safest path is the shortest path on the graph that
    [block_edges_by_hazards] returns, for every graph argument; with hazards
    that yield no geometry it is the shortest path on the graph itself. *)
Theorem safest_is_shortest_on_pruned :
  forall (L : Libs T) (G : Graph T) (origin target : T * T) (hazards : Hazards),
    compute_safest_path L G origin target hazards
    = compute_shortest_path L (block_edges_by_hazards L G hazards).1
        origin target "length" /\
    (_iter_hazard_geoms L hazards = [] ->
     compute_safest_path L G origin target hazards
     = compute_shortest_path L G origin target "length").
Proof.
  intros L G origin target hazards.
  assert (E : compute_safest_path L G origin target hazards
    = compute_shortest_path L (block_edges_by_hazards L G hazards).1
        origin target "length").
  { unfold compute_safest_path. destruct G as [|g|dn de|g b].
    - reflexivity.
    - pose proof (block_edges_not_none L (GNx g) hazards ltac:(discriminate)) as N.
      destruct (block_edges_by_hazards L (GNx g) hazards).1; [congruence | reflexivity..].
    - pose proof (block_edges_not_none L (GDict dn de) hazards ltac:(discriminate)) as N.
      destruct (block_edges_by_hazards L (GDict dn de) hazards).1; [congruence | reflexivity..].
    - pose proof (block_edges_not_none L (GPair g b) hazards ltac:(discriminate)) as N.
      destruct (block_edges_by_hazards L (GPair g b) hazards).1; [congruence | reflexivity..]. }
  split; [exact E |].
  intros Eg. rewrite E.
  rewrite (block_edges_no_geometry L G hazards Eg). reflexivity.
Qed.

Lemma mapM_Ok_tuples (g : NxGraph T) (origin : T * T) (ij : list (Z * Z)) :
  mapM (path_coord g origin) ((fun p : Z * Z => NTuple p.1 p.2) <$> ij)
  = Ok ((fun p : Z * Z => (of_int p.1, of_int p.2)) <$> ij).
Proof.
  induction ij as [|[i j] ij IH]; [reflexivity |].
  cbn [fmap list_fmap mapM]. cbn [path_coord fst snd].
  rewrite bind_Ok, IH, bind_Ok. reflexivity.
Qed.

(** X17. On a networkx graph: when both searches raise, the route is the
    straight line, after two searches; when a search finds a path of
    lattice nodes, the route is the list of their indices [(i, j)], not of
    the coordinates attached to them; and an empty path gives the straight
    line. *)
Theorem shortest_path_outcomes :
  forall (L : Libs T) (g : NxGraph T) (origin target : T * T) (weight : string),
    nx L = true ->
    let src := _nearest_node_in_graph L (GNx g) origin in
    let dst := _nearest_node_in_graph L (GNx g) target in
    (* both searches raise: the straight line, after two searches *)
    (forall e1 e2,
        nx_shortest_path L g src dst (Some weight) = Raise e1 ->
        nx_shortest_path L g src dst None = Raise e2 ->
        compute_shortest_path L (GNx g) origin target weight
        = (grid_route_fallback origin target 30, 2%nat)) /\
    (* a path of lattice nodes: their indices, after one search *)
    (forall ij,
        ij <> [] ->
        nx_shortest_path L g src dst (Some weight)
        = Ok ((fun p : Z * Z => NTuple p.1 p.2) <$> ij) ->
        compute_shortest_path L (GNx g) origin target weight
        = ((fun p : Z * Z => (of_int p.1, of_int p.2)) <$> ij, 1%nat)) /\
    (* the weighted search raises, the unweighted one finds lattice nodes *)
    (forall e1 ij,
        ij <> [] ->
        nx_shortest_path L g src dst (Some weight) = Raise e1 ->
        nx_shortest_path L g src dst None
        = Ok ((fun p : Z * Z => NTuple p.1 p.2) <$> ij) ->
        compute_shortest_path L (GNx g) origin target weight
        = ((fun p : Z * Z => (of_int p.1, of_int p.2)) <$> ij, 2%nat)) /\
    (* an empty path: the straight line *)
    (nx_shortest_path L g src dst (Some weight) = Ok [] ->
     compute_shortest_path L (GNx g) origin target weight
     = (grid_route_fallback origin target 30, 1%nat)).
Proof.
  intros L g origin target weight Hnx src dst.
  unfold compute_shortest_path, search. rewrite Hnx. fold src dst.
  repeat split.
  - intros e1 e2 -> ->. reflexivity.
  - intros ij N ->. cbn [fst snd]. rewrite bind_Ok, mapM_Ok_tuples, bind_Ok.
    destruct ij; [congruence | reflexivity].
  - intros e1 ij N -> ->. cbn [fst snd]. rewrite bind_Ok, mapM_Ok_tuples, bind_Ok.
    destruct ij; [congruence | reflexivity].
  - intros ->. reflexivity.
Qed.
End PlannerFacts.

(** ** The synthesized lattice *)

Lemma seq_bind_length {A} (f : nat -> list A) (k : nat) (start len : nat) :
  (forall i, length (f i) = k) ->
  length (seq start len ≫= f) = (len * k)%nat.
Proof.
  intros Hf. revert start. induction len as [|len IH]; intros start; [reflexivity |].
  cbn [seq]. rewrite bind_cons, length_app, Hf, IH. lia.
Qed.

Lemma grid_2d_nodes_length (m n : nat) :
  length (grid_2d_nodes m n) = (m * n)%nat.
Proof.
  unfold grid_2d_nodes, range.
  rewrite list_fmap_bind. apply seq_bind_length. intros i. cbn.
  rewrite list_fmap_bind. rewrite (seq_bind_length _ 1); [lia |]. reflexivity.
Qed.

Lemma grid_2d_edges_neighbours (m n : nat) (u v : Node) :
  (u, v) ∈ grid_2d_edges m n ->
  exists i j : Z,
    u = NTuple i j /\ (0 <= i < Z.of_nat m)%Z /\ (0 <= j < Z.of_nat n)%Z /\
    ((v = NTuple (i + 1) j /\ (i + 1 < Z.of_nat m)%Z) \/
     (v = NTuple i (j + 1) /\ (j + 1 < Z.of_nat n)%Z)).
Proof.
  unfold grid_2d_edges, range.
  intros (i & Hin & (a & -> & Ha%elem_of_seq)%list_elem_of_fmap)%list_elem_of_bind.
  apply list_elem_of_bind in Hin as (j & Hin & (b & -> & Hb%elem_of_seq)%list_elem_of_fmap).
  exists (Z.of_nat a), (Z.of_nat b).
  apply elem_of_app in Hin as [Hin|Hin]; case_bool_decide; try (by apply elem_of_nil in Hin);
    apply list_elem_of_singleton in Hin; injection Hin as -> ->;
    (split; [reflexivity |]); (split; [lia |]); (split; [lia |]); [left | right]; split; (reflexivity || lia).
Qed.

Lemma seq_bind_count {A} (f : nat -> list A) (N c k : nat) :
  (forall b, length (f b) = c + (if bool_decide (Z.of_nat b + 1 < Z.of_nat N)%Z then k else 0))%nat ->
  length (seq 0 N ≫= f) = (N * c + (N - 1) * k)%nat.
Proof.
  intros Hf.
  assert (G : forall len s, (s + len = N)%nat ->
            length (seq s len ≫= f) = (len * c + (len - 1) * k)%nat).
  { induction len as [|len IH]; intros s E; [reflexivity |].
    cbn [seq]. rewrite bind_cons, length_app, Hf, (IH (S s)) by lia.
    case_bool_decide; destruct len; cbn; try lia. }
  apply G. lia.
Qed.

Lemma grid_2d_edges_length (m n : nat) :
  length (grid_2d_edges m n) = ((m - 1) * n + m * (n - 1))%nat.
Proof.
  unfold grid_2d_edges, range. rewrite list_fmap_bind.
  rewrite (seq_bind_count _ m (n - 1) n); [lia |].
  intros a. cbn. rewrite list_fmap_bind.
  rewrite (seq_bind_count _ n (if bool_decide (Z.of_nat a + 1 < Z.of_nat m)%Z then 1 else 0) 1); [case_bool_decide; lia |].
  intros b. cbn. rewrite length_app. repeat case_bool_decide; reflexivity.
Qed.

Section GridShape.
Context {T : Type} `{PyFloat T}.

Lemma mapM_result_Forall2 {A B} (f : A -> result B) (l : list A) (k : list B) :
  mapM f l = Ok k -> Forall2 (fun x y => f x = Ok y) l k.
Proof.
  revert k. induction l as [|x l IH]; intros k E.
  - injection E as <-. constructor.
  - cbn [mapM] in E. destruct (f x) as [y|] eqn:Ex; [| discriminate].
    rewrite bind_Ok in E. destruct (mapM f l) as [k'|]; [| discriminate].
    injection E as <-. constructor; [exact Ex | by apply IH].
Qed.

Lemma nodes_get_member (g : NxGraph T) (n : Node) attrs :
  nodes_get g n = Ok attrs -> n ∈ (nodes g).*1.
Proof.
  unfold nodes_get. destruct (find _ _) as [na|] eqn:E; [| discriminate].
  intros _. apply find_some in E as [Hin Hb].
  apply bool_decide_eq_true in Hb. subst n.
  apply list_elem_of_fmap. exists na. split; [reflexivity |].
  by apply list_elem_of_In.
Qed.

Lemma grid_edge_spec (M : Math T) (g : NxGraph T) uv e :
  grid_edge M g uv = Ok e ->
  e.1 = uv /\ is_Some (e_length e.2) /\
  uv.1 ∈ (nodes g).*1 /\ uv.2 ∈ (nodes g).*1.
Proof.
  unfold grid_edge.
  destruct (nodes_get g uv.1) as [au|] eqn:Eu; [| discriminate]. rewrite bind_Ok.
  destruct (getitem au "coord" ≫= to_pair) as [a|]; [| discriminate]. rewrite bind_Ok.
  destruct (nodes_get g uv.2) as [av|] eqn:Ev; [| discriminate]. rewrite bind_Ok.
  destruct (getitem av "coord" ≫= to_pair) as [b|]; [| discriminate]. rewrite bind_Ok.
  destruct (_haversine_km M a b) as [d|]; [| discriminate]. rewrite bind_Ok.
  intros [= <-]. cbn. split; [reflexivity |]. split; [by eexists |].
  split; eapply nodes_get_member; eassumption.
Qed.

Lemma grid_edges_ends (M : Math T) (g : NxGraph T) (l : list (Node * Node))
    (es : list (Node * Node * EdgeData T)) :
  Forall2 (fun x y => grid_edge M g x = Ok y) l es -> es.*1 = l.
Proof.
  induction 1 as [|x y l k Hxy _ IH]; [reflexivity |].
  cbn. rewrite IH. apply grid_edge_spec in Hxy as [-> _]. reflexivity.
Qed.

Lemma build_grid_graph_edge_list (L : Libs T) (size : nat)
    (center_point : option (T * T)) :
  edge_list (build_grid_graph L size center_point) = grid_2d_edges size size \/
  edge_list (build_grid_graph L size center_point) = [].
Proof.
  unfold build_grid_graph. destruct (nx L); cbn [negb].
  - destruct (mapM _ _) as [es|] eqn:E; cbn; [left | right; reflexivity].
    apply mapM_result_Forall2 in E. exact (grid_edges_ends _ _ _ _ E).
  - right. reflexivity.
Qed.

(** X18. [build_grid_graph] returns a networkx graph or the dict fallback.
    The networkx graph has [size * size] nodes and the [2 * size * (size -
    1)] edges of the lattice, each with a length and with both ends among
    the nodes; the dict fallback has no edges, and [size * size] nodes when
    networkx is absent (none when the construction raised). *)
Theorem build_grid_graph_structure :
  forall (L : Libs T) (size : nat) (center_point : option (T * T)),
    match build_grid_graph L size center_point with
    | GNx g =>
        nx L = true /\
        length (nodes g) = (size * size)%nat /\
        edge_list (GNx g) = grid_2d_edges size size /\
        length (edges g) = (2 * size * (size - 1))%nat /\
        Forall (fun e => is_Some (e_length e.2) /\
                         e.1.1 ∈ (nodes g).*1 /\ e.1.2 ∈ (nodes g).*1)
               (edges g)
    | GDict dnodes dedges =>
        dedges = [] /\
        (nx L = false -> length dnodes = (size * size)%nat) /\
        (nx L = true -> dnodes = [])
    | GNone | GPair _ _ => False
    end.
Proof.
  intros L size center_point. unfold build_grid_graph.
  destruct (nx L); cbn [negb].
  - destruct (mapM _ _) as [es|] eqn:E; cbn.
    + apply mapM_result_Forall2 in E.
      split; [reflexivity |].
      split; [unfold grid_nodes; rewrite length_fmap; apply grid_2d_nodes_length |].
      assert (El : es.*1 = grid_2d_edges size size)
        by exact (grid_edges_ends _ _ _ _ E).
      split; [exact El |].
      split; [rewrite <- (length_fmap fst), El, grid_2d_edges_length; nia |].
      clear El. induction E as [|x y l k Hxy _ IH]; constructor; [| exact IH].
      apply grid_edge_spec in Hxy as (-> & Hl & Hu & Hv). auto.
    + split; [reflexivity |]. split; [discriminate | reflexivity].
  - cbn. split; [reflexivity |]. split; [| discriminate].
    intros _. rewrite length_fmap. apply grid_2d_nodes_length.
Qed.
End GridShape.

(** X19. Every edge of the synthesized graph joins a lattice node to its
    lower or to its right neighbour, both inside the lattice. *)
Theorem build_grid_graph_neighbours :
  forall (T : Type) (F : PyFloat T) (L : Libs T) (size : nat)
         (center_point : option (T * T)) (u v : Node),
    (u, v) ∈ edge_list (build_grid_graph L size center_point) ->
    exists i j : Z,
      u = NTuple i j /\
      (0 <= i < Z.of_nat size)%Z /\ (0 <= j < Z.of_nat size)%Z /\
      ((v = NTuple (i + 1) j /\ (i + 1 < Z.of_nat size)%Z) \/
       (v = NTuple i (j + 1) /\ (j + 1 < Z.of_nat size)%Z)).
Proof.
  intros T F L size center_point u v.
  destruct (build_grid_graph_edge_list L size center_point) as [-> | ->].
  - apply grid_2d_edges_neighbours.
  - intros []%elem_of_nil.
Qed.

(** ** The straight line, in general *)

(** X20. In exact arithmetic, for every origin, target and positive number
    of steps, point [i] of the straight line is origin + (i/steps) *
    (target - origin); the first point is the origin and the last is the
    target.  In binary64 the last point need not be the target: from
    (47.8, 0) to (-90, 1) the route of 30 steps starts at the origin and
    ends at latitude -90.000000000000014. *)
Theorem grid_route_fallback_points :
  (forall (origin target : Q * Q) (steps : Z) (i : nat),
      (0 < steps)%Z -> (Z.of_nat i <= steps)%Z ->
      exists p,
        grid_route_fallback origin target steps !! i = Some p /\
        p.1 == origin.1 + (inject_Z (Z.of_nat i) / inject_Z steps)
                          * (target.1 - origin.1) /\
        p.2 == origin.2 + (inject_Z (Z.of_nat i) / inject_Z steps)
                          * (target.2 - origin.2) /\
        (i = 0%nat -> same_position p origin) /\
        (Z.of_nat i = steps -> same_position p target)) /\
  (let origin := (47.8, 0)%float in
   let target := (-90, 1)%float in
   let route := grid_route_fallback origin target 30 in
   head route = Some origin /\
   last route = Some (-90.000000000000014, 1)%float /\
   last route <> Some target).
Proof.
  split.
  2:{ cbv zeta. split; [vm_compute; reflexivity |].
      split; [vm_compute; reflexivity |]. vm_compute. discriminate. }
  intros [lat1 lon1] [lat2 lon2] steps i Hs Hi.
  unfold grid_route_fallback.
  destruct (Z.eqb_spec steps 0) as [->|_]; [lia |].
  rewrite list_lookup_fmap, range_lookup by lia.
  eexists. split; [reflexivity |]. cbn [fst snd fmap option_fmap option_map].
  assert (Nz : ~ inject_Z steps == 0).
  { unfold Qeq. cbn. lia. }
  change (@of_int Q _) with inject_Z.
  change (@fadd Q _) with Qplus. change (@fsub Q _) with Qminus.
  change (@fmul Q _) with Qmult. change (@fdiv Q _) with Qdiv.
  split; [field; exact Nz |]. split; [field; exact Nz |].
  split.
  - intros ->. split; cbn [fst snd]; change (inject_Z (Z.of_nat 0)) with 0;
      field; exact Nz.
  - intros ->. split; cbn [fst snd]; field; exact Nz.
Qed.

(** ** The straight line stays between its ends *)

Lemma between_fraction (a b f : Q) :
  0 <= f <= 1 -> Qmin a b <= a + (b - a) * f <= Qmax a b.
Proof.
  intros [F0 F1].
  destruct (Q.min_spec a b) as [[L ->]|[L ->]];
  destruct (Q.max_spec a b) as [[L' ->]|[L' ->]]; try lra; nra.
Qed.

(** X27. In exact arithmetic every point of the straight line lies between
    the origin and the target, in latitude and in longitude.  In binary64
    it need not: the route of 30 steps between the valid positions
    (47.8, 0) and (-90, 1) has a point of latitude below -90. *)
Theorem grid_route_fallback_between :
  (forall (origin target : Q * Q) (steps : Z) (p : Q * Q),
      p ∈ grid_route_fallback origin target steps ->
      Qmin origin.1 target.1 <= p.1 <= Qmax origin.1 target.1 /\
      Qmin origin.2 target.2 <= p.2 <= Qmax origin.2 target.2) /\
  (exists p : float * float,
      p ∈ grid_route_fallback (47.8, 0)%float (-90, 1)%float 30 /\
      PrimFloat.ltb p.1 (-90)%float = true).
Proof.
  split.
  2:{ exists (-90.000000000000014, 1)%float. split; [| vm_compute; reflexivity].
      apply list_elem_of_lookup. exists 30%nat. vm_compute. reflexivity. }
  intros [lat1 lon1] [lat2 lon2] steps p.
  unfold grid_route_fallback. cbn [fst snd].
  destruct (Z.eqb_spec steps 0) as [->|N].
  - intros [->|[->|[]%elem_of_nil]%elem_of_cons]%elem_of_cons; cbn [fst snd];
      split; split;
      first [apply Q.le_min_l | apply Q.le_min_r | apply Q.le_max_l | apply Q.le_max_r].
  - intros (i & -> & Hi)%list_elem_of_fmap. cbn [fst snd].
    unfold range in Hi. apply list_elem_of_fmap in Hi as (n & -> & Hn%elem_of_seq).
    change (@of_int Q _) with inject_Z.
    change (@fadd Q _) with Qplus. change (@fsub Q _) with Qminus.
    change (@fmul Q _) with Qmult. change (@fdiv Q _) with Qdiv.
    assert (Ps : 0 < inject_Z steps) by (unfold Qlt; cbn; lia).
    assert (F : 0 <= inject_Z (Z.of_nat n) / inject_Z steps <= 1).
    { split.
      - apply Qle_shift_div_l; [exact Ps |]. rewrite Qmult_0_l.
        unfold Qle; cbn; lia.
      - apply Qle_shift_div_r; [exact Ps |]. rewrite Qmult_1_l.
        rewrite <- Zle_Qle. lia. }
    set (f := inject_Z (Z.of_nat n) / inject_Z steps) in *.
    assert (E : forall a b, a + (b - a) * inject_Z (Z.of_nat n) / inject_Z steps
                            == a + (b - a) * f).
    { intros a b. subst f. field. lra. }
    rewrite !E. split; apply between_fraction; exact F.
Qed.

(** ** Risk scoring and fusion in the application *)

Lemma app_crowd_score_bound (file : thresholds_file Q)
    (crowd_sim : option DataFrame) (trigger_crowd : bool) :
  let c := match app_score_crowd file crowd_sim trigger_crowd with
           | Ok r => r.1 | Raise _ => 0 end in
  0 <= c <= 0.7.
Proof.
  cbv zeta. unfold app_score_crowd.
  destruct (RiskCrowd.score_crowd _ _ _ _ _) as [[s d]|e] eqn:E; cbn [fst]; [| lra].
  apply score_crowd_three_values in E as [[V|[V|V]] _]; lra.
Qed.

Lemma assess_severity (file : thresholds_file Q) weather flood crowd surge :
  a_severity (assess file weather flood crowd surge None)
  = tier_of_combined
      (combined_score
         (a_disaster_score (assess file weather flood crowd surge None))
         (a_crowd_score (assess file weather flood crowd surge None))).
Proof.
  unfold assess.
  match goal with |- context [fuse ?d ?c None] =>
    pose proof (fuse_tier d c) as F; destruct (fuse d c None) as [s r] end.
  cbn in *. exact F.
Qed.

(** X24. When the thresholds file cannot be read, or is read and has no
    rainfall table, the disaster scorer raises and the application counts
    its score as 0: the tier is then the one of the crowd score alone and
    is never Critical, whatever the weather and the flood override. *)
Theorem assess_without_rainfall_table :
  forall (file : thresholds_file Q) (weather : gmap string Q)
         (trigger_flood : bool) (crowd_sim : option DataFrame)
         (trigger_crowd : bool),
    (file = FileUnreadable \/
     exists t, file = FileParsed t /\ t !! "rainfall_mm" = None) ->
    let a := assess file weather trigger_flood crowd_sim trigger_crowd None in
    a_disaster_score a = 0 /\
    a_severity a = tier_of_combined (a_crowd_score a * 0.9) /\
    a_severity a <> "Critical".
Proof.
  intros file weather flood crowd surge Hf a.
  assert (D : a_disaster_score a = 0).
  { subst a. unfold assess.
    assert (E : app_score_disaster file weather flood = Raise "OSError" \/
                app_score_disaster file weather flood = Raise "KeyError").
    { destruct Hf as [-> | (t & -> & Ht)]; [left; reflexivity | right].
      unfold app_score_disaster, RiskDisaster.score_disaster, getitem.
      cbn [RiskDisaster._load_thresholds]. rewrite Ht. reflexivity. }
    destruct (fuse _ _ None). destruct E as [-> | ->]; reflexivity. }
  pose proof (assess_severity file weather flood crowd surge) as S.
  fold a in S. rewrite D in S.
  pose proof (app_crowd_score_bound file crowd surge) as B. cbv zeta in B.
  assert (C : a_crowd_score a
              = match app_score_crowd file crowd surge with
                | Ok r => r.1 | Raise _ => 0 end).
  { subst a. unfold assess. destruct (fuse _ _ None). reflexivity. }
  rewrite <- C in B.
  pose proof (combined_score_Qmax 0 (a_crowd_score a)) as M.
  assert (M' : combined_score 0 (a_crowd_score a) == a_crowd_score a * 0.9).
  { rewrite M. apply Q.max_r. lra. }
  split; [exact D |]. split.
  - rewrite S. apply tier_of_combined_proper. exact M'.
  - rewrite S, (tier_of_combined_proper _ _ M'), tier_critical_iff. lra.
Qed.

(** X25. With no thresholds file, the flood override gives a disaster score
    of at least 0.6 and the tier High or Critical, whatever the weather and
    the crowd data; Critical exactly when the wind is at least 80 kph. *)
Theorem assess_flood_override :
  forall (weather : gmap string Q) (crowd_sim : option DataFrame)
         (trigger_crowd : bool),
    let a := assess FileAbsent weather true crowd_sim trigger_crowd None in
    0.6 <= a_disaster_score a /\
    (a_severity a = "High" \/ a_severity a = "Critical") /\
    (a_severity a = "Critical" <-> 80 <= default 0 (weather !! "wind_kph")).
Proof.
  intros weather crowd surge a.
  pose proof (assess_severity FileAbsent weather true crowd surge) as S.
  fold a in S.
  pose proof (app_crowd_score_bound FileAbsent crowd surge) as B. cbv zeta in B.
  assert (C : a_crowd_score a
              = match app_score_crowd FileAbsent crowd surge with
                | Ok r => r.1 | Raise _ => 0 end).
  { subst a. unfold assess. destruct (fuse _ _ None). reflexivity. }
  rewrite <- C in B.
  destruct (score_disaster_default_value weather true None) as (s & d & E & V).
  assert (D : a_disaster_score a = s).
  { subst a. unfold assess, app_score_disaster. rewrite E.
    destruct (fuse _ _ None). reflexivity. }
  rewrite D in *.
  set (wind := default 0 (weather !! "wind_kph")) in *.
  set (rain := default 0 (weather !! "rainfall_mm")) in *.
  destruct (rain_points_spec rain true) as (R1 & _ & _).
  specialize (R1 (or_intror eq_refl)).
  destruct (wind_points_spec wind) as (W1 & W2 & W3).
  pose proof (combined_score_Qmax s (a_crowd_score a)) as M.
  set (m := combined_score s (a_crowd_score a)) in *.
  rewrite S. rewrite tier_critical_iff.
  assert (Hs : 0.6 <= s /\ (0.8 <= s <-> 80 <= wind)).
  { set (p := rain_points rain true) in *. set (w := wind_points wind) in *.
    destruct (Q.min_spec 1 (p + w)) as [[? Em]|[? Em]]; rewrite Em in V; clear Em;
    destruct (Qlt_le_dec wind 80); destruct (Qlt_le_dec wind 40); try lra;
    repeat match goal with
    | H : _ < _ -> _ |- _ => first [ specialize (H ltac:(lra)) | clear H ]
    | H : _ <= _ -> _ |- _ => first [ specialize (H ltac:(lra)) | clear H ]
    | H : _ <= _ < _ -> _ |- _ => first [ specialize (H ltac:(lra)) | clear H ]
    end; split; try lra; split; intros; lra. }
  destruct Hs as [Hs Hw].
  assert (Hm : 0.6 <= m /\ (0.8 <= m <-> 0.8 <= s)).
  { destruct (Q.max_spec s (a_crowd_score a * 0.9)) as [[? Ex]|[? Ex]];
      rewrite Ex in M; split; try lra; split; intros; lra. }
  destruct Hm as [Hm Hc].
  split; [exact Hs |]. split.
  - unfold tier_of_combined. q_cases; q_consts; try lra; auto.
  - rewrite Hc. exact Hw.
Qed.

Lemma update_risk_history_drop {A} (h : list A) (e : A) :
  update_risk_history h e = drop (length (h ++ [e]) - 100) (h ++ [e]).
Proof.
  unfold update_risk_history.
  destruct (Nat.ltb_spec 100 (length (h ++ [e]))) as [L|L]; [reflexivity |].
  replace (length (h ++ [e]) - 100)%nat with 0%nat by lia. reflexivity.
Qed.

Lemma update_risk_history_step {A} (p : list A) (e : A) :
  update_risk_history (drop (length p - 100) p) e
  = drop (length (p ++ [e]) - 100) (p ++ [e]).
Proof.
  rewrite update_risk_history_drop, !length_app, length_drop. cbn [length].
  destruct (Nat.le_gt_cases 100 (length p)) as [L|L].
  - rewrite <- (drop_app_le p [e]) by lia. rewrite drop_drop. f_equal. lia.
  - replace (length p - 100)%nat with 0%nat by lia. rewrite drop_0.
    f_equal. lia.
Qed.

Lemma risk_history_fold {A} (es p : list A) :
  foldl update_risk_history (drop (length p - 100) p) es
  = drop (length (p ++ es) - 100) (p ++ es).
Proof.
  revert p. induction es as [|e es IH]; intros p; cbn [foldl].
  - rewrite app_nil_r. reflexivity.
  - rewrite update_risk_history_step, IH, <- app_assoc. reflexivity.
Qed.

(** X26. Started empty, the risk history is at every run the last 100
    entries appended so far, in order: it never exceeds 100 entries and
    ends with the newest. *)
Theorem risk_history_last_hundred :
  forall (A : Type) (entries : list A),
    let history := foldl update_risk_history [] entries in
    history = drop (length entries - 100) entries /\
    length history = Nat.min 100 (length entries) /\
    (forall e, length (update_risk_history history e) <= 100)%nat /\
    (forall e, last (update_risk_history history e) = Some e).
Proof.
  intros A entries history.
  assert (E : history = drop (length entries - 100) entries).
  { exact (risk_history_fold entries []). }
  split; [exact E |]. split; [rewrite E, length_drop; lia |].
  split; intros e; rewrite E, update_risk_history_step.
  - rewrite length_drop, length_app. cbn [length]. lia.
  - rewrite drop_app_le by (rewrite length_app; cbn [length]; lia).
    apply last_snoc.
Qed.

(** ** Voice navigation *)

Import Narrator.

Lemma range_step_bound (stop step i : nat) :
  (0 < step)%nat -> i ∈ range_step stop step -> (i < stop)%nat.
Proof.
  intros Hs (k & -> & Hk%elem_of_seq)%list_elem_of_fmap.
  pose proof (Nat.Div0.mul_div_le (stop + step - 1) step). nia.
Qed.

Lemma segment_count_bound (n : nat) :
  (length (range_step (n - 1) (Nat.max 1 (n / 15))) <= 28)%nat.
Proof.
  unfold range_step. rewrite length_fmap, length_seq.
  pose proof (Nat.Div0.mul_div_le n 15) as Hl.
  pose proof (Nat.mul_succ_div_gt n 15 ltac:(lia)) as Hu.
  set (q := (n / 15)%nat) in *.
  apply Nat.Div0.div_le_upper_bound. nia.
Qed.

Lemma segment_points_ok (route : list (Q * Q)) (seg i : nat) :
  (i < length route - 1)%nat ->
  exists current next_point,
    segment_points route seg i = Ok (current, next_point) /\
    current ∈ route /\ next_point ∈ route.
Proof.
  intros Hi. unfold segment_points, index.
  destruct (lookup_lt_is_Some_2 route i ltac:(lia)) as [c Ec].
  rewrite Ec, bind_Ok.
  destruct (length route <=? i + seg)%nat.
  - destruct (lookup_lt_is_Some_2 route (length route - 1) ltac:(lia)) as [x Ex].
    rewrite Ex, bind_Ok. exists c, x. split; [reflexivity |].
    split; eapply list_elem_of_lookup_2; eassumption.
  - destruct (lookup_lt_is_Some_2 route (Nat.min (i + seg) (length route - 1)) ltac:(lia)) as [x Ex].
    rewrite Ex, bind_Ok. exists c, x. split; [reflexivity |].
    split; eapply list_elem_of_lookup_2; eassumption.
Qed.

Lemma calculate_bearing_range (M : Math Q) (degrees : Q -> Q) (p1 p2 : Q * Q) :
  0 <= calculate_bearing M degrees p1 p2 < 360.
Proof. unfold calculate_bearing. apply Qmod_range. reflexivity. Qed.

Lemma nav_step_appends M degrees route seg dist_km st i st' :
  nav_step M degrees route seg dist_km st i = Ok st' ->
  st'.1.1 = st.1.1 \/ exists t, is_turn t /\ st'.1.1 = st.1.1 ++ [t].
Proof.
  destruct st as [[ins pb] cum]. unfold nav_step.
  destruct (segment_points route seg i) as [[c x]|]; [| discriminate].
  rewrite bind_Ok. cbv beta iota.
  destruct (haversine_km M c x) as [d|]; [| discriminate].
  rewrite bind_Ok. cbv zeta.
  destruct (_ <? 5)%py eqn:E5; intros E; injection E as E; subst st';
    [left; reflexivity |].
  right. eexists. split; [| reflexivity].
  split; [reflexivity |]. split; [reflexivity |]. cbn.
  split; [apply Q_fltb_ge in E5; exact E5 |].
  split; [| by eexists].
  eexists. split; [reflexivity | apply calculate_bearing_range].
Qed.

Lemma for_each_appends M degrees route seg dist_km l st st' :
  for_each (nav_step M degrees route seg dist_km) st l = Ok st' ->
  exists turns, st'.1.1 = st.1.1 ++ turns /\ Forall is_turn turns /\
                (length turns <= length l)%nat.
Proof.
  revert st. induction l as [|i l IH]; intros st E; cbn [for_each] in E.
  - injection E as <-. exists []. rewrite app_nil_r. split; [reflexivity |].
    split; [constructor | reflexivity].
  - destruct (nav_step M degrees route seg dist_km st i) as [st1|] eqn:E1;
      [| discriminate].
    rewrite bind_Ok in E. destruct (IH _ E) as (turns & Et & Ft & Lt).
    apply nav_step_appends in E1 as [E1|(t & Ht & E1)].
    + exists turns. rewrite Et, E1. split; [reflexivity |].
      split; [exact Ft | cbn; lia].
    + exists (t :: turns). rewrite Et, E1, <- app_assoc.
      split; [reflexivity |]. split; [by constructor | cbn; lia].
Qed.

Lemma for_each_ok M degrees route seg dist_km l st :
  (forall p q, p ∈ route -> q ∈ route -> exists d, haversine_km M p q = Ok d) ->
  (forall i, i ∈ l -> i < length route - 1)%nat ->
  exists st', for_each (nav_step M degrees route seg dist_km) st l = Ok st'.
Proof.
  intros Hh. revert st. induction l as [|i l IH]; intros st Hl; cbn [for_each].
  - by eexists.
  - assert (exists st1, nav_step M degrees route seg dist_km st i = Ok st1) as [st1 E1].
    { destruct st as [[ins pb] cum]. unfold nav_step.
      destruct (segment_points_ok route seg i) as (c & x & -> & Hc & Hx).
      { apply Hl. left. }
      rewrite bind_Ok. cbv beta iota.
      destruct (Hh c x Hc Hx) as [d ->]. rewrite bind_Ok. cbv zeta.
      destruct (_ <? 5)%py; by eexists. }
    rewrite E1, bind_Ok. apply IH. intros j Hj. apply Hl. by right.
Qed.

Lemma voice_navigation_long_route (M : Math Q) (degrees : Q -> Q)
    (route : list (Q * Q)) (target_name : string) (dist_km : Q) (eta_min : Z)
    (instructions : list instruction) :
  (2 <= length route)%nat ->
  generate_voice_navigation M degrees route target_name dist_km eta_min
  = Ok instructions ->
  exists start turns approach arrival,
    instructions = start :: turns ++ [approach; arrival] /\
    i_type start = "start" /\ Forall is_turn turns /\
    i_type approach = "approach" /\ i_type arrival = "arrival" /\
    (length turns
     <= length (range_step (length route - 1)
                           (Nat.max 1 (length route / 15))))%nat.
Proof.
  intros Hn. unfold generate_voice_navigation.
  destruct (Nat.ltb_spec (length route) 2) as [Hl|_]; [lia |].
  destruct (for_each _ _ _) as [st|] eqn:E; [| discriminate].
  rewrite bind_Ok. apply for_each_appends in E as (turns & Et & Ft & Lt).
  cbn [fst] in Et. rewrite Et. cbn [app length Nat.ltb Nat.leb].
  intros [= <-].
  eexists _, turns, _, _. split.
  { cbn. rewrite <- app_assoc. reflexivity. }
  repeat split; try exact Ft. exact Lt.
Qed.

(** X21. What [generate_voice_navigation] returns is the empty list for a
    route of fewer than two points, and otherwise one start instruction,
    then the turn instructions (each for a segment of at least 5 metres,
    with a bearing in [0, 360), at most 28 of them and fewer than the
    route has points), then the approach and the arrival instruction. *)
Theorem voice_navigation_structure :
  forall (M : Math Q) (degrees : Q -> Q) (route : list (Q * Q))
         (target_name : string) (dist_km : Q) (eta_min : Z)
         (instructions : list instruction),
    generate_voice_navigation M degrees route target_name dist_km eta_min
    = Ok instructions ->
    ((length route < 2)%nat /\ instructions = []) \/
    ((2 <= length route)%nat /\
     exists start turns approach arrival,
       instructions = start :: turns ++ [approach; arrival] /\
       i_type start = "start" /\ Forall is_turn turns /\
       i_type approach = "approach" /\ i_type arrival = "arrival" /\
       (length turns <= 28)%nat /\ (length turns < length route)%nat).
Proof.
  intros M degrees route target_name dist_km eta_min instructions R.
  destruct (Nat.lt_ge_cases (length route) 2) as [Hn|Hn].
  - left. split; [exact Hn |]. revert R. unfold generate_voice_navigation.
    destruct (Nat.ltb_spec (length route) 2) as [_|Hl]; [| lia].
    intros [= <-]. reflexivity.
  - right. split; [exact Hn |].
    destruct (voice_navigation_long_route _ _ _ _ _ _ _ Hn R)
      as (start & turns & approach & arrival & E & Hs & Ft & Ha & Hb & Lt).
    exists start, turns, approach, arrival.
    repeat split; try assumption.
    + pose proof (segment_count_bound (length route)). lia.
    + revert Lt. unfold range_step. rewrite length_fmap, length_seq.
      set (s := Nat.max 1 (length route / 15)).
      assert (1 <= s)%nat by lia.
      pose proof (Nat.Div0.div_le_upper_bound
                    (length route - 1 + s - 1) s (length route - 1)
                    ltac:(nia)).
      lia.
Qed.

(** X22. [generate_voice_navigation] returns whenever the haversine
    distance is defined between the points of the route: no index it
    computes is out of range. *)
Theorem voice_navigation_returns :
  forall (M : Math Q) (degrees : Q -> Q) (route : list (Q * Q))
         (target_name : string) (dist_km : Q) (eta_min : Z),
    (forall p q, p ∈ route -> q ∈ route -> exists d, haversine_km M p q = Ok d) ->
    exists instructions,
      generate_voice_navigation M degrees route target_name dist_km eta_min
      = Ok instructions.
Proof.
  intros M degrees route target_name dist_km eta_min Hh.
  unfold generate_voice_navigation.
  destruct (length route <? 2)%nat; [by eexists |].
  destruct (for_each_ok M degrees route (Nat.max 1 (length route / 15)) dist_km
              (range_step (length route - 1) (Nat.max 1 (length route / 15)))
              ([ {| i_type := "start";
         i_text := [Lit "Navigation started. Proceed to "; Lit target_name;
                    Lit ". Total distance is "; Fmt dist_km ".1f";
                    Lit " kilometers. Estimated travel time is ";
                    FmtInt eta_min;
                    Lit " minutes. Follow the route and avoid hazards."];
         i_distance := 0; i_bearing := None; i_remaining := None;
         i_priority := "high" |} ], None, 0) Hh) as [st ->].
  { intros i Hi. eapply range_step_bound; [| exact Hi]. lia. }
  rewrite bind_Ok. by eexists.
Qed.

(** X23. On the route the routing block ends with, the narration is never
    empty: it starts with the start instruction, ends with the arrival and
    has at least three instructions; for the 31 points of the null graph
    it has at most 18. *)
Theorem routed_narration :
  forall (L : Libs Q) (G : Graph Q) (hazards : Hazards) (mode : string)
         (origin target_coord : Q * Q) (M : Math Q) (degrees : Q -> Q)
         (target_name : string) (dist_km : Q) (eta_min : Z)
         (instructions : list instruction),
    generate_voice_navigation M degrees
      (route_block L G hazards mode origin target_coord).1
      target_name dist_km eta_min = Ok instructions ->
    (3 <= length instructions)%nat /\
    (exists s, head instructions = Some s /\ i_type s = "start") /\
    (exists a, last instructions = Some a /\ i_type a = "arrival") /\
    (G = GNone -> (length instructions <= 18)%nat).
Proof.
  intros L G hazards mode origin target_coord M degrees target_name dist_km
         eta_min instructions R.
  pose proof (route_block_length L G hazards mode origin target_coord) as Hn.
  destruct (voice_navigation_long_route _ _ _ _ _ _ _ Hn R)
    as (start & turns & approach & arrival & -> & Hs & Ft & Ha & Hb & Lt).
  split; [cbn [length]; rewrite length_app; cbn [length]; lia |].
  split; [exists start; split; [reflexivity | exact Hs] |].
  split.
  - exists arrival. split; [| exact Hb].
    replace (start :: turns ++ [approach; arrival])
      with ((start :: turns ++ [approach]) ++ [arrival])
      by (cbn; rewrite <- app_assoc; reflexivity).
    apply last_snoc.
  - intros ->. revert Lt. cbn [route_block fst].
    rewrite grid_route_fallback_length.
    cbn [length]. rewrite length_app. cbn [length].
    change (length (range_step (31 - 1) (Nat.max 1 (31 / 15)))) with 15%nat.
    lia.
Qed.

(** ** Concrete instances of the further properties *)

Lemma score_disaster_range_witness :
  exists score drivers,
    RiskDisaster.score_disaster None weather_A true None = Ok (score, drivers) /\
    0 <= score <= 1 /\ length drivers = 2%nat /\ (true = true -> 0.6 <= score).
Proof.
  assert (exists r, RiskDisaster.score_disaster (T:=Q) None weather_A true None
                    = Ok r) as [[s d] E]
    by (eexists; vm_compute; reflexivity).
  exists s, d. split; [exact E |].
  exact (score_disaster_range None weather_A true None s d E).
Defined.

Lemma score_disaster_missing_key_witness :
  RiskDisaster.score_disaster (T:=Q)
    (Some {[ "wind_kph" := {[ "high" := 80 ]} ]}) weather_A true None
  = Raise "KeyError" /\
  RiskDisaster.score_disaster (T:=Q)
    (Some {[ "rainfall_mm" := {[ "high" := 50 ]} ]}) weather_A true None
  = Raise "KeyError".
Proof.
  split.
  - apply (score_disaster_missing_key Q _
             {[ "wind_kph" := {[ "high" := 80 ]} ]} weather_A true None).
    vm_compute. reflexivity.
  - destruct (score_disaster_missing_key Q _
                {[ "rainfall_mm" := {[ "high" := 50 ]} ]} weather_A true None)
      as (_ & _ & Hw).
    apply (Hw {[ "high" := 50 ]} 50); vm_compute; reflexivity.
Defined.

Lemma score_disaster_monotone_witness :
  exists s1 d1 s2 d2,
    RiskDisaster.score_disaster None
      {[ "rainfall_mm" := 30; "wind_kph" := 10 ]} false None = Ok (s1, d1) /\
    RiskDisaster.score_disaster None weather_A true None = Ok (s2, d2) /\
    s1 <= s2.
Proof.
  apply (score_disaster_monotone
           {[ "rainfall_mm" := 30; "wind_kph" := 10 ]} weather_A false true None).
  - q_eval.
  - q_eval.
  - intros _. reflexivity.
Defined.

Lemma score_crowd_values_witness :
  exists score drivers,
    RiskCrowd.score_crowd None
      (Some {| df_rows := 1; df_columns := {[ "people" := [5000%Z] ]} |})
      false 1000 None = Ok (score, drivers) /\
    (score == 0 \/ score == 0.35 \/ score == 0.7) /\
    (length drivers = 1%nat \/ length drivers = 3%nat) /\
    (forall d : Q, d < 0.8 -> (fuse d score None).1 <> "Critical").
Proof.
  assert (exists r, RiskCrowd.score_crowd (T:=Q) None
      (Some {| df_rows := 1; df_columns := {[ "people" := [5000%Z] ]} |})
      false 1000 None = Ok r) as [[s d] E]
    by (eexists; vm_compute; reflexivity).
  exists s, d. split; [exact E |].
  exact (score_crowd_values _ _ _ _ _ s d E).
Defined.

Lemma score_crowd_errors_witness :
  RiskCrowd.score_crowd (T:=Q) (Some ∅)
    (Some {| df_rows := 1; df_columns := {[ "people" := [5000%Z] ]} |})
    false 0 None = Raise "ZeroDivisionError" /\
  RiskCrowd.score_crowd (T:=Q) (Some ∅)
    (Some {| df_rows := 1; df_columns := {[ "people" := [5000%Z] ]} |})
    false 1000 None = Raise "KeyError".
Proof.
  split.
  - apply (score_crowd_errors Q _ (Some ∅)
             {| df_rows := 1; df_columns := {[ "people" := [5000%Z] ]} |}
             [5000%Z] false 0 None); vm_compute; reflexivity.
  - destruct (score_crowd_errors Q _ (Some ∅)
             {| df_rows := 1; df_columns := {[ "people" := [5000%Z] ]} |}
             [5000%Z] false 1000 None) as (_ & Hk & _);
      [vm_compute; reflexivity | vm_compute; reflexivity |].
    apply (Hk ∅); vm_compute; reflexivity.
Defined.

Lemma score_crowd_defaults_witness :
  exists score drivers,
    RiskCrowd.score_crowd (T:=float) None
      (Some {| df_rows := 1; df_columns := {[ "people" := [3000%Z] ]} |})
      false 1000%float None = Ok (score, drivers) /\
    score = 0.35%float.
Proof.
  destruct (proj1 score_crowd_defaults float _
              {| df_rows := 1; df_columns := {[ "people" := [3000%Z] ]} |}
              [3000%Z] false 1000%float None)
    as (s & d & E & _ & _ & Hm & _).
  - vm_compute. reflexivity.
  - vm_compute. reflexivity.
  - vm_compute. reflexivity.
  - exists s, d. split; [exact E |].
    assert (Es : s = pymin (of_int 1) (dec 35 2)).
    { apply Hm.
      - reflexivity.
      - vm_compute. reflexivity.
      - vm_compute. reflexivity. }
    rewrite Es. vm_compute. reflexivity.
Defined.

Lemma block_edges_unchanged_witness :
  block_edges_by_hazards demo_libs small_grid HNone = (small_grid, 0%Z) /\
  _iter_hazard_geoms
    {| nx := true; ox := false; shapely := false; math := demo_math;
       nx_shortest_path := hop_shortest_path;
       ox_graph_from_point := fun _ _ => Raise "ConnectionError";
       shape := fun j => Ok j; contains := fun _ _ => Ok false |}
    middle_hazard = [].
Proof.
  split.
  - apply (proj1 (block_edges_unchanged demo_libs small_grid HNone)).
    reflexivity.
  - apply (block_edges_unchanged
             {| nx := true; ox := false; shapely := false; math := demo_math;
                nx_shortest_path := hop_shortest_path;
                ox_graph_from_point := fun _ _ => Raise "ConnectionError";
                shape := fun j => Ok j; contains := fun _ _ => Ok false |}
             small_grid HNone).
    reflexivity.
Defined.

Lemma block_edges_zero_iff_witness :
  block_edges_by_hazards demo_libs (GNx one_node_graph) middle_hazard
  = (GNx one_node_graph, 0%Z) /\
  (1 <= (block_edges_by_hazards demo_libs (GNx small_grid_nx) middle_hazard).2)%Z.
Proof.
  split.
  - apply (proj1 (block_edges_zero_iff demo_libs one_node_graph middle_hazard
                    eq_refl)).
    intros e He. apply elem_of_nil in He. destruct He.
  - assert (exists e, edges small_grid_nx !! 2%nat = Some e /\
                       edge_hit demo_libs small_grid_nx
                         (_iter_hazard_geoms demo_libs middle_hazard) e = true)
      as (e & Ee & Eh).
    { eexists. split.
      - vm_compute. reflexivity.
      - vm_compute. reflexivity. }
    apply (proj2 (block_edges_zero_iff demo_libs small_grid_nx middle_hazard
                    eq_refl) e).
    + eapply list_elem_of_lookup_2. exact Ee.
    + exact Eh.
Defined.

Lemma nearest_node_in_graph_minimal_witness :
  match _nearest_node_in_graph demo_libs (GNx small_grid_nx) (1, 2) with
  | RefNode best =>
      exists best_d,
        node_distance demo_libs small_grid_nx (1, 2) best = Ok best_d /\
        forall n d, n ∈ (nodes small_grid_nx).*1 ->
                    node_distance demo_libs small_grid_nx (1, 2) n = Ok d ->
                    best_d <= d
  | RefCoord _ =>
      forall n, n ∈ (nodes small_grid_nx).*1 ->
                exists e, node_distance demo_libs small_grid_nx (1, 2) n = Raise e
  end.
Proof.
  exact (nearest_node_in_graph_minimal demo_libs small_grid_nx (1, 2) eq_refl).
Defined.

Lemma shortest_path_outcomes_witness :
  compute_shortest_path demo_libs (GNx small_grid_nx) (0, 0) (2, 2) "length"
  = ((fun p : Z * Z => (inject_Z p.1, inject_Z p.2))
       <$> [(0, 0); (1, 0); (2, 0); (2, 1); (2, 2)]%Z, 1%nat).
Proof.
  destruct (shortest_path_outcomes demo_libs small_grid_nx (0, 0) (2, 2)
              "length" eq_refl) as (_ & Hp & _).
  apply (Hp [(0, 0); (1, 0); (2, 0); (2, 1); (2, 2)]%Z).
  - discriminate.
  - vm_compute. reflexivity.
Defined.

Lemma build_grid_graph_neighbours_witness :
  Forall (fun uv : Node * Node =>
            exists i j : Z,
              uv.1 = NTuple i j /\
              (0 <= i < Z.of_nat 3)%Z /\ (0 <= j < Z.of_nat 3)%Z /\
              ((uv.2 = NTuple (i + 1) j /\ (i + 1 < Z.of_nat 3)%Z) \/
               (uv.2 = NTuple i (j + 1) /\ (j + 1 < Z.of_nat 3)%Z)))
         (edge_list small_grid).
Proof.
  apply Forall_forall. intros [u v] Huv.
  exact (build_grid_graph_neighbours Q _ demo_libs 3 None u v Huv).
Defined.

Lemma grid_route_fallback_points_witness :
  exists p,
    grid_route_fallback (10, 76) (10.3, 76.3) 30 !! 15%nat = Some p /\
    p.1 == 10 + (inject_Z (Z.of_nat 15) / inject_Z 30) * (10.3 - 10) /\
    p.2 == 76 + (inject_Z (Z.of_nat 15) / inject_Z 30) * (76.3 - 76).
Proof.
  destruct (proj1 grid_route_fallback_points (10, 76) (10.3, 76.3) 30%Z 15%nat)
    as (p & E & H1 & H2 & _); [lia | lia |].
  exists p. split; [exact E |]. split; [exact H1 | exact H2].
Defined.

Lemma grid_route_fallback_between_witness :
  Forall (fun p : Q * Q => (10 <= p.1 <= 10.3) /\ (76 <= p.2 <= 76.3))
         (grid_route_fallback (10, 76) (10.3, 76.3) 30).
Proof.
  apply Forall_forall. intros p Hp.
  exact (proj1 grid_route_fallback_between (10, 76) (10.3, 76.3) 30%Z p Hp).
Defined.

Lemma assess_without_rainfall_table_witness :
  let a := assess (FileParsed {[ "crowd_density_per_m2" :=
                                   {[ "medium" := 2; "high" := 4 ]} ]})
                  weather_A true None false None in
  a_disaster_score a = 0 /\
  a_severity a = tier_of_combined (a_crowd_score a * 0.9) /\
  a_severity a <> "Critical".
Proof.
  apply (assess_without_rainfall_table
           (FileParsed {[ "crowd_density_per_m2" :=
                            {[ "medium" := 2; "high" := 4 ]} ]})
           weather_A true None false).
  right. eexists. split; [reflexivity |]. vm_compute. reflexivity.
Defined.

Lemma voice_navigation_structure_witness :
  exists instructions,
    generate_voice_navigation demo_math demo_degrees short_walk "Shelter" 1 13
    = Ok instructions /\
    (((length short_walk < 2)%nat /\ instructions = []) \/
     ((2 <= length short_walk)%nat /\
      exists start turns approach arrival,
        instructions = start :: turns ++ [approach; arrival] /\
        i_type start = "start" /\ Forall is_turn turns /\
        i_type approach = "approach" /\ i_type arrival = "arrival" /\
        (length turns <= 28)%nat /\ (length turns < length short_walk)%nat)).
Proof.
  assert (exists ins, generate_voice_navigation demo_math demo_degrees
                        short_walk "Shelter" 1 13 = Ok ins) as [ins E]
    by (eexists; vm_compute; reflexivity).
  exists ins. split; [exact E |].
  exact (voice_navigation_structure _ _ _ _ _ _ ins E).
Defined.

Lemma voice_navigation_returns_witness :
  exists instructions,
    generate_voice_navigation demo_math demo_degrees short_walk "Shelter" 1 13
    = Ok instructions.
Proof.
  apply (voice_navigation_returns demo_math demo_degrees short_walk
           "Shelter" 1 13).
  intros p q Hp Hq.
  apply list_elem_of_In in Hp, Hq. cbn in Hp, Hq.
  destruct Hp as [<-|[<-|[<-|[]]]]; destruct Hq as [<-|[<-|[<-|[]]]];
    eexists; vm_compute; reflexivity.
Defined.

Lemma routed_narration_witness :
  exists instructions,
    generate_voice_navigation demo_math demo_degrees
      (route_block demo_libs small_grid HNone "Shortest" (0, 0) (2, 2)).1
      "Shelter" 314 4193 = Ok instructions /\
    (3 <= length instructions)%nat /\
    (exists s, head instructions = Some s /\ i_type s = "start") /\
    (exists a, last instructions = Some a /\ i_type a = "arrival").
Proof.
  assert (exists ins, generate_voice_navigation demo_math demo_degrees
      (route_block demo_libs small_grid HNone "Shortest" (0, 0) (2, 2)).1
      "Shelter" 314 4193 = Ok ins) as [ins E]
    by (eexists; vm_compute; reflexivity).
  exists ins. split; [exact E |].
  destruct (routed_narration demo_libs small_grid HNone "Shortest" (0, 0) (2, 2)
              demo_math demo_degrees "Shelter" 314 4193 ins E)
    as (H3 & Hs & Ha & _).
  split; [exact H3 |]. split; [exact Hs | exact Ha].
Defined.
